(** * Request-queue handlers of ignition/service/requestqueue.py

    A shallow embedding of the Kafka request-queue handlers
    ([KafkaRequestQueueHandler] and its infrastructure and lifecycle
    specialisations), of the consumer factory and of the request-queue
    service constructor, followed by the properties proved about them.

    Python values are a small inductive type, a request is a finite map
    from strings to values, and the methods are computations in a state
    and exception monad whose state carries the [request] dict (one
    object, shared by [process_request], [handle_request] and
    [handle_failed_request], which all see each other's mutations) and
    the trace of everything the handler did to the outside world:
    log records, polls, commits, posts and calls of the collaborators.

    The collaborators that are not part of the module (Kafka consumer,
    postal service, JsonContent, PropValueMap, uuid, script file manager,
    the driver's request handler) are the fields of [Ports]: functions of
    the trace so far and of their arguments, which either return or
    raise. *)

From Stdlib Require Import ZArith.
From stdpp Require Import base strings list gmap.

Local Open Scope Z_scope.
Local Open Scope string_scope.
Local Open Scope list_scope.

(** ** Python values *)

#[local] Set Warnings "-register-all".

Inductive pyval : Type :=
| PNone
| PBool (b : bool)
| PInt (n : Z)
| PStr (s : string)
| PList (xs : list pyval)
| PDict (kvs : list (string * pyval)).

(** A request is the dict read from a message: string keys, unique. *)
Abbreviation Request := (gmap string pyval).

(** [bool(v)] *)
Definition truthy (v : pyval) : bool :=
  match v with
  | PNone => false
  | PBool b => b
  | PInt n => negb (Z.eqb n 0)
  | PStr s => negb (String.eqb s "")
  | PList xs => match xs with [] => false | _ => true end
  | PDict kvs => match kvs with [] => false | _ => true end
  end.

(** [v is None] *)
Definition is_None (v : pyval) : bool :=
  match v with PNone => true | _ => false end.

(** [request.get(key, default)] *)
Definition dict_get (request : Request) (key : string) (default : pyval) : pyval :=
  match request !! key with
  | Some v => v
  | None => default
  end.

(** [key not in request or request[key] is None] *)
Definition missing (request : Request) (key : string) : bool :=
  match request !! key with
  | None => true
  | Some v => is_None v
  end.

(** [v is None or v == ''] *)
Definition None_or_empty (v : pyval) : bool :=
  match v with
  | PNone => true
  | PStr s => String.eqb s ""
  | _ => false
  end.

(** ** Exceptions and results *)

(** An instance of a subclass of [Exception]: class name and message;
    [str(e)] is the message. *)
Inductive exn : Type := Exception (cls : string) (msg : string).

Definition str_exn (e : exn) : string :=
  match e with Exception _ msg => msg end.

Definition ValueError (msg : string) : exn := Exception "ValueError" msg.
Definition AttributeError (msg : string) : exn := Exception "AttributeError" msg.

(** What a call of a collaborator gives: a value or a raised exception. *)
Inductive result (A : Type) : Type :=
| Ok (a : A)
| Err (e : exn).
Arguments Ok {A} a.
Arguments Err {A} e.

(** How a method ends: it returns, an exception escapes it, or
    [sys.exit(code)] ends the process ([SystemExit] is not an
    [Exception], no [except Exception] clause stops it). *)
Inductive Outcome (A : Type) : Type :=
| Return (a : A)
| Raise (e : exn)
| SysExit (code : Z).
Arguments Return {A} a.
Arguments Raise {A} e.
Arguments SysExit {A} code.

(** ** Messaging data *)

(** kafka's TopicPartition and ConsumerRecord, the fields the module reads *)
Record TopicPartition : Type := { tp_topic : string; tp_partition : Z }.
Record ConsumerRecord : Type := { value : string; offset : Z }.

(** ignition.service.messaging: Message(content), Envelope(address, message) *)
Record Message : Type := { content : string }.
Record Envelope : Type := { address : pyval; message : Message }.

(** Configuration objects, the attributes the module reads.  An attribute
    holds any value, [None] included. *)
Record TopicConfigProperties : Type := { name : pyval }.
Record RequestQueueConfig : Type := {
  topic : TopicConfigProperties;
  group_id : pyval;
  failed_topic : TopicConfigProperties
}.
Record MessagingConfig : Type := { connection_address : pyval }.

(** ** The trace *)

Inductive Level : Type := DEBUG | INFO | WARNING | ERROR.

(** A log record keeps the format string and the arguments given to
    [format]. *)
Inductive Event : Type :=
| ELog (level : Level) (fmt : string) (args : list pyval)
| EPoll (timeout_ms max_records : Z)
| ECommit
| EClose
| EPost (envelope : Envelope) (key : option pyval)
| EUuid4 (u : string)
| EBuildTree (file_name : string) (scripts : pyval)
| EHandleRequest (request : Request).

Record State : Type := {
  request : Request;
  events : list Event
}.

(** ** The collaborators *)

Record Ports : Type := {
  (** requests_consumer.poll(timeout_ms, max_records).items() *)
  consumer_poll : list Event -> Z -> Z ->
                  result (list (TopicPartition * list ConsumerRecord));
  (** requests_consumer.commit() *)
  consumer_commit : list Event -> result unit;
  (** requests_consumer.close() *)
  consumer_close : list Event -> result unit;
  (** postal_service.post(envelope, key=...) *)
  postal_service_post : list Event -> Envelope -> option pyval -> result unit;
  (** JsonContent.read(value.decode('utf-8')).dict_val *)
  JsonContent_read : string -> result Request;
  (** JsonContent(request).get() *)
  JsonContent_get : Request -> result string;
  (** PropValueMap(v) *)
  PropValueMap : pyval -> result pyval;
  (** str(uuid.uuid4()) *)
  uuid4 : list Event -> string;
  (** script_file_manager.build_tree(file_name, scripts) *)
  build_tree : list Event -> string -> pyval -> result pyval;
  (** the driver's RequestHandler.handle_request(request): what it returns
      or raises, and the request dict as it leaves it *)
  request_handler : list Event -> Request -> result pyval * Request
}.

(** ** The monad *)

Definition M (A : Type) : Type := State -> Outcome A * State.

Definition ret {A} (a : A) : M A := fun s => (Return a, s).

Definition bind {A B} (m : M A) (k : A -> M B) : M B := fun s =>
  match m s with
  | (Return a, s') => k a s'
  | (Raise e, s') => (Raise e, s')
  | (SysExit c, s') => (SysExit c, s')
  end.

Definition raise {A} (e : exn) : M A := fun s => (Raise e, s).

(** sys.exit(code) *)
Definition sys_exit {A} (code : Z) : M A := fun s => (SysExit code, s).

(** try: body / except Exception as e: handler e *)
Definition try_except {A} (body : M A) (handler : exn -> M A) : M A := fun s =>
  match body s with
  | (Raise e, s') => handler e s'
  | r => r
  end.

Definition lift_result {A} (r : result A) : M A :=
  match r with
  | Ok a => ret a
  | Err e => raise e
  end.

Definition record_event (ev : Event) : M unit := fun s =>
  (Return tt, {| request := request s; events := events s ++ [ev] |}).

Definition get_events : M (list Event) := fun s => (Return (events s), s).

(** the dict bound to [request] *)
Definition get_request : M Request := fun s => (Return (request s), s).

(** request = r *)
Definition set_request (r : Request) : M unit := fun s =>
  (Return tt, {| request := r; events := events s |}).

(** request[key] = v *)
Definition set_item (key : string) (v : pyval) : M unit := fun s =>
  (Return tt, {| request := <[key := v]> (request s); events := events s |}).

(** request[key]; the callers have checked that the key is there *)
Definition get_item (key : string) : M pyval := fun s =>
  match request s !! key with
  | Some v => (Return v, s)
  | None => (Raise (Exception "KeyError" key), s)
  end.

#[export] Instance M_ret : MRet M := @ret.
#[export] Instance M_bind : MBind M := fun A B k m => bind m k.

(** A call of a collaborator: the call is recorded, then it returns or
    raises. *)
Definition call {A} (ev : Event) (port : list Event -> result A) : M A :=
  h ← get_events;
  record_event ev ;;
  lift_result (port h).

Definition logger (level : Level) (fmt : string) (args : list pyval) : M unit :=
  record_event (ELog level fmt args).

(** ** KafkaRequestQueueHandler and its subclasses *)

Inductive HandlerClass : Type :=
| KafkaRequestQueueHandler
| KafkaInfrastructureRequestQueueHandler
| KafkaLifecycleRequestQueueHandler.

Section Handler.

Variable P : Ports.
Variable request_queue_config : RequestQueueConfig.

Definition post (envelope : Envelope) (key : option pyval) : M unit :=
  call (EPost envelope key) (fun h => postal_service_post P h envelope key).

Definition handle_failed_request : M unit :=
  request ← get_request;
  let request_id := dict_get request "request_id" PNone in
  if negb (is_None request_id) then
    payload ← lift_result (JsonContent_get P request);
    post {| address := name (failed_topic request_queue_config);
            message := {| content := payload |} |} (Some request_id)
  else
    payload ← lift_result (JsonContent_get P request);
    post {| address := name (failed_topic request_queue_config);
            message := {| content := payload |} |} None.

(** One of the guards of the specialised handlers:
    if [key] is missing, warn, dead-letter and return False; otherwise go
    on with [rest]. *)
Definition guard (fmt : string) (key : string) (partition offset : pyval)
    (rest : M pyval) : M pyval :=
  request ← get_request;
  if missing request key then
    logger WARNING fmt [partition; offset] ;;
    handle_failed_request ;;
    ret (PBool false)
  else rest.

(** request[key] = PropValueMap(request[key]) *)
Definition wrap_PropValueMap (key : string) : M unit :=
  v ← get_item key;
  w ← lift_result (PropValueMap P v);
  set_item key w.

(** self.<x>_request_handler.handle_request(request) *)
Definition delegate : M pyval := fun s =>
  let '(r, request') := request_handler P (events s) (request s) in
  let s' := {| request := request';
               events := events s ++ [EHandleRequest (request s)] |} in
  match r with
  | Ok v => (Return v, s')
  | Err e => (Raise e, s')
  end.

(** The statements of the two [handle_request] between the checks and the
    call of the driver's handler. *)
Definition infrastructure_prepare : M unit :=
  wrap_PropValueMap "properties" ;;
  wrap_PropValueMap "system_properties".

Definition lifecycle_prepare : M unit :=
  h ← get_events;
  let file_name := uuid4 P h in
  record_event (EUuid4 file_name) ;;
  scripts ← get_item "lifecycle_scripts";
  path ← call (EBuildTree file_name scripts)
           (fun h => build_tree P h file_name scripts);
  set_item "lifecycle_path" path ;;
  wrap_PropValueMap "properties" ;;
  wrap_PropValueMap "system_properties".

Definition infrastructure_handle_request : M pyval :=
  try_except
    (request ← get_request;
     let partition := dict_get request "partition" PNone in
     let offset := dict_get request "offset" PNone in
     guard "Infrastructure request for partition {0} offset {1} is missing request_id. This request has been discarded"
       "request_id" partition offset (
     guard "Infrastructure request for partition {0} offset {1} is missing template. This request has been discarded"
       "template" partition offset (
     guard "Infrastructure request for partition {0} offset {1} is missing template_type. This request has been discarded"
       "template_type" partition offset (
     guard "Infrastructure request for partition {0} offset {1} is missing properties. This request has been discarded"
       "properties" partition offset (
     guard "Infrastructure request for partition {0} offset {1} is missing system_properties. This request has been discarded"
       "system_properties" partition offset (
     guard "Infrastructure request for partition {0} offset {1} is missing deployment_location. This request has been discarded"
       "deployment_location" partition offset (
     infrastructure_prepare ;;
     delegate)))))))
    (fun e =>
       request ← get_request;
       let request_id := dict_get request "request_id" PNone in
       logger ERROR "Caught exception processing infrastructure request {0} for topic {1}: {2}"
         [request_id; name (topic request_queue_config); PStr (str_exn e)] ;;
       raise e).

Definition lifecycle_handle_request : M pyval :=
  try_except
    (request ← get_request;
     let partition := dict_get request "partition" PNone in
     let offset := dict_get request "offset" PNone in
     guard "Lifecycle request for partition {0} offset {1} is missing request_id. This request has been discarded"
       "request_id" partition offset (
     guard "Lifecycle request for partition {0} offset {1} is missing lifecycle_name. This request has been discarded"
       "lifecycle_name" partition offset (
     guard "Lifecycle request for partition {0} offset {1} is missing lifecycle_scripts. This request has been discarded"
       "lifecycle_scripts" partition offset (
     guard "Lifecycle request for partition {0} offset {1} is missing system_properties. This request has been discarded"
       "system_properties" partition offset (
     guard "Lifecycle request for partition {0} offset {1} is missing properties. This request has been discarded"
       "properties" partition offset (
     guard "Lifecycle request for partition {0} offset {1} is missing deployment_location. This request has been discarded"
       "deployment_location" partition offset (
     lifecycle_prepare ;;
     delegate)))))))
    (fun e =>
       request ← get_request;
       let request_id := dict_get request "request_id" PNone in
       logger ERROR "Caught exception processing lifecycle request {0} for topic {1}: {2}"
         [request_id; name (topic request_queue_config); PStr (str_exn e)] ;;
       raise e).

(** self.handle_request(request): the base class has [pass], which
    returns None. *)
Definition handle_request (self : HandlerClass) : M pyval :=
  match self with
  | KafkaRequestQueueHandler => ret PNone
  | KafkaInfrastructureRequestQueueHandler => infrastructure_handle_request
  | KafkaLifecycleRequestQueueHandler => lifecycle_handle_request
  end.

(** What [process_request] does with the first message of a partition:
    the body of [if len(messages) > 0]. *)
Definition process_message (self : HandlerClass)
    (topic_partition : TopicPartition) (message : ConsumerRecord) : M pyval :=
  r ← lift_result (JsonContent_read P (value message));
  set_request r ;;
  logger DEBUG "Reading topic {0} partition {1} group {2}"
    [PStr (tp_topic topic_partition); PInt (tp_partition topic_partition);
     group_id request_queue_config] ;;
  request ← get_request;
  if missing request "request_id" then
    logger WARNING "Request for topic {0} partition {1} offset {2} is missing request_id. This request has been discarded."
      [PStr (tp_topic topic_partition); PInt (tp_partition topic_partition);
       PInt (offset message)] ;;
    handle_failed_request ;;
    ret (PBool false)
  else
    let request_id := dict_get request "request_id" PNone in
    set_item "partition" (PInt (tp_partition topic_partition)) ;;
    set_item "offset" (PInt (offset message)) ;;
    ok ← handle_request self;
    if truthy ok then
      logger DEBUG "Committing request with id {0} on topic {1} for partition {2} offset {3}"
        [request_id; PStr (tp_topic topic_partition);
         PInt (tp_partition topic_partition); PInt (offset message)] ;;
      call ECommit (consumer_commit P) ;;
      ret (PBool true)
    else
      logger WARNING "Adding failed request with id {0} to failed topic"
        [request_id] ;;
      handle_failed_request ;;
      ret (PBool false).

(** The [for] loop of [process_request] over the items of the poll
    result: the first partition with a message ends it by a [return];
    falling out of the loop, the method returns None. *)
Fixpoint process_records (self : HandlerClass)
    (items : list (TopicPartition * list ConsumerRecord)) : M pyval :=
  match items with
  | [] => ret PNone
  | (topic_partition, messages) :: rest =>
      match messages with
      | [] => process_records self rest
      | message :: _ => process_message self topic_partition message
      end
  end.

Definition process_request (self : HandlerClass) : M pyval :=
  try_except
    (items ← call (EPoll 200 1) (fun h => consumer_poll P h 200 1);
     process_records self items)
    (fun e =>
       logger ERROR "Lifecycle request queue for topic {0} is closing due to error {1}"
         [name (topic request_queue_config); PStr (str_exn e)] ;;
       sys_exit 1).

Definition close : M unit :=
  call EClose (consumer_close P).

End Handler.

(** ** KafkaConsumerFactory.__init__ *)

Module KafkaConsumerFactory.

Record t : Type := {
  self_bootstrap_servers : pyval;
  self_topic_name : pyval;
  self_group_id : pyval
}.

Definition init (request_queue_config : RequestQueueConfig)
    (messaging_config : MessagingConfig) : result t :=
  if None_or_empty (connection_address messaging_config) then
    Err (ValueError "messaging_config.connection_address cannot be null")
  else if None_or_empty (name (topic request_queue_config)) then
    Err (ValueError "request_queue_config.topic.name cannot be null")
  else if None_or_empty (group_id request_queue_config) then
    Err (ValueError "request_queue_config.group_id cannot be null")
  else
    Ok {| self_bootstrap_servers := connection_address messaging_config;
          self_topic_name := name (topic request_queue_config);
          self_group_id := group_id request_queue_config |}.

End KafkaConsumerFactory.

(** ** KafkaRequestQueueService.__init__ *)

(** The objects given as keyword arguments: None, a messaging
    configuration (it has [connection_address]), a driver configuration
    group (it has [request_queue]), or any other object. *)
Inductive pyobj : Type :=
| ONone
| OMessagingConfig (c : MessagingConfig)
| OPropertiesGroup (request_queue : RequestQueueConfig)
| OService (label : string).

Module KafkaRequestQueueService.

Record t : Type := {
  self_script_file_manager : pyobj;
  self_bootstrap_servers : pyval;
  self_infrastructure_request_queue_config : RequestQueueConfig;
  self_lifecycle_request_queue_config : RequestQueueConfig;
  self_postal_service : pyobj;
  self_infrastructure_consumer_factory : pyobj;
  self_lifecycle_consumer_factory : pyobj
}.

(** kwargs.get(key) *)
Definition kwargs_get (kwargs : gmap string pyobj) (key : string) : pyobj :=
  match kwargs !! key with
  | Some o => o
  | None => ONone
  end.

(** o.connection_address *)
Definition get_connection_address (o : pyobj) : result pyval :=
  match o with
  | OMessagingConfig c => Ok (connection_address c)
  | _ => Err (AttributeError "connection_address")
  end.

(** o.request_queue *)
Definition get_request_queue (o : pyobj) : result RequestQueueConfig :=
  match o with
  | OPropertiesGroup q => Ok q
  | _ => Err (AttributeError "request_queue")
  end.

(** key not in kwargs *)
Definition not_in (key : string) (kwargs : gmap string pyobj) : bool :=
  match kwargs !! key with
  | None => true
  | Some _ => false
  end.

Definition init (kwargs : gmap string pyobj) : result t :=
  if not_in "messaging_config" kwargs then
    Err (ValueError "messaging_config argument not provided")
  else if not_in "infrastructure_config" kwargs then
    Err (ValueError "infrastructure_config argument not provided")
  else if not_in "lifecycle_config" kwargs then
    Err (ValueError "lifecycle_config argument not provided")
  else if not_in "postal_service" kwargs then
    Err (ValueError "postal_service argument not provided")
  else if not_in "script_file_manager" kwargs then
    Err (ValueError "script_file_manager argument not provided")
  else if not_in "infrastructure_consumer_factory" kwargs then
    Err (ValueError "infrastructure_consumer_factory argument not provided")
  else if not_in "lifecycle_consumer_factory" kwargs then
    Err (ValueError "lifecycle_consumer_factory argument not provided")
  else
    let messaging_config := kwargs_get kwargs "messaging_config" in
    let infrastructure_config := kwargs_get kwargs "infrastructure_config" in
    let lifecycle_config := kwargs_get kwargs "lifecycle_config" in
    match get_connection_address messaging_config with
    | Err e => Err e
    | Ok address =>
        match get_request_queue infrastructure_config with
        | Err e => Err e
        | Ok infrastructure_queue =>
            match get_request_queue lifecycle_config with
            | Err e => Err e
            | Ok lifecycle_queue =>
                Ok {| self_script_file_manager := kwargs_get kwargs "script_file_manager";
                      self_bootstrap_servers := address;
                      self_infrastructure_request_queue_config := infrastructure_queue;
                      self_lifecycle_request_queue_config := lifecycle_queue;
                      self_postal_service := kwargs_get kwargs "postal_service";
                      self_infrastructure_consumer_factory :=
                        kwargs_get kwargs "infrastructure_consumer_factory";
                      self_lifecycle_consumer_factory :=
                        kwargs_get kwargs "lifecycle_consumer_factory" |}
            end
        end
    end.

End KafkaRequestQueueService.

(** ** Vocabulary of the properties *)

(** The required fields of the two kinds of request, in the order in
    which the handlers check them; [process_request] itself requires
    the request id. *)
Definition infrastructure_required : list string :=
  ["request_id"; "template"; "template_type"; "properties";
   "system_properties"; "deployment_location"].

Definition lifecycle_required : list string :=
  ["request_id"; "lifecycle_name"; "lifecycle_scripts"; "system_properties";
   "properties"; "deployment_location"].

Definition required_fields (self : HandlerClass) : list string :=
  match self with
  | KafkaRequestQueueHandler => ["request_id"]
  | KafkaInfrastructureRequestQueueHandler => infrastructure_required
  | KafkaLifecycleRequestQueueHandler => lifecycle_required
  end.

(** The first required field that is absent or None, if there is one. *)
Definition first_missing (fields : list string) (request : Request) : option string :=
  List.find (missing request) fields.

(** Every required field is there and is not None. *)
Definition complete (fields : list string) (request : Request) : bool :=
  forallb (fun key => negb (missing request key)) fields.

(** The warning of a specialised handler for a missing field. *)
Definition kind_name (self : HandlerClass) : string :=
  match self with
  | KafkaRequestQueueHandler => "Request"
  | KafkaInfrastructureRequestQueueHandler => "Infrastructure"
  | KafkaLifecycleRequestQueueHandler => "Lifecycle"
  end.

Definition missing_field_warning (self : HandlerClass) (field : string)
    (request : Request) : Event :=
  ELog WARNING
    (kind_name self +:+ " request for partition {0} offset {1} is missing " +:+
     field +:+ ". This request has been discarded")
    [dict_get request "partition" PNone; dict_get request "offset" PNone].

(** The partition key of a dead-letter message: the request id when the
    request has one that is not None, no key otherwise. *)
Definition dead_letter_key (request : Request) : option pyval :=
  match request !! "request_id" with
  | Some v => if is_None v then None else Some v
  | None => None
  end.

(** The dead-letter message of a request whose serialised body is
    [payload]. *)
Definition dead_letter (config : RequestQueueConfig) (payload : string)
    (request : Request) : Event :=
  EPost {| address := name (failed_topic config);
           message := {| content := payload |} |}
        (dead_letter_key request).

(** The request as [process_request] hands it to [handle_request]. *)
Definition enriched (request : Request) (topic_partition : TopicPartition)
    (message : ConsumerRecord) : Request :=
  <["offset" := PInt (offset message)]>
    (<["partition" := PInt (tp_partition topic_partition)]> request).

Definition is_commit (ev : Event) : bool :=
  match ev with ECommit => true | _ => false end.

Definition is_post (ev : Event) : bool :=
  match ev with EPost _ _ => true | _ => false end.

Definition is_delegate_call (ev : Event) : bool :=
  match ev with EHandleRequest _ => true | _ => false end.

Definition is_build_tree (ev : Event) : bool :=
  match ev with EBuildTree _ _ => true | _ => false end.

(** How many events of a trace satisfy [p]. *)
Definition count (p : Event -> bool) (trace : list Event) : nat :=
  length (List.filter p trace).

(** A computation that never produces an event of the kind [p]:
    whatever it does, it only adds events, none of them of that kind. *)
Definition avoids {A} (p : Event -> bool) (m : M A) : Prop :=
  forall s out s', m s = (out, s') ->
    exists more, events s' = events s ++ more /\ count p more = 0%nat.

(** The two subclasses. *)
Definition specialised (self : HandlerClass) : Prop :=
  self = KafkaInfrastructureRequestQueueHandler \/
  self = KafkaLifecycleRequestQueueHandler.

(** The keyword arguments that the service constructor looks for. *)
Definition required_kwargs : list string :=
  ["messaging_config"; "infrastructure_config"; "lifecycle_config";
   "postal_service"; "script_file_manager";
   "infrastructure_consumer_factory"; "lifecycle_consumer_factory"].

(** The state after more events. *)
Definition after (s : State) (more : list Event) : State :=
  {| request := request s; events := events s ++ more |}.

(** The outcome of a call that returned [r]. *)
Definition outcome_of {A} (r : result A) : Outcome A :=
  match r with
  | Ok a => Return a
  | Err e => Raise e
  end.

(** The first message of a poll result: the first one of the first
    partition that has any. *)
Fixpoint first_record (items : list (TopicPartition * list ConsumerRecord))
    : option (TopicPartition * ConsumerRecord) :=
  match items with
  | [] => None
  | (topic_partition, messages) :: rest =>
      match messages with
      | [] => first_record rest
      | message :: _ => Some (topic_partition, message)
      end
  end.

Section Vocabulary.

Variable P : Ports.
Variable request_queue_config : RequestQueueConfig.

(** The statements of [handle_request] between the checks and the call of
    the driver's handler, by class. *)
Definition prepare (self : HandlerClass) : M unit :=
  match self with
  | KafkaRequestQueueHandler => ret tt
  | KafkaInfrastructureRequestQueueHandler => infrastructure_prepare P
  | KafkaLifecycleRequestQueueHandler => lifecycle_prepare P
  end.

Definition reading_log (topic_partition : TopicPartition) : Event :=
  ELog DEBUG "Reading topic {0} partition {1} group {2}"
    [PStr (tp_topic topic_partition); PInt (tp_partition topic_partition);
     group_id request_queue_config].

(** The state in which [process_request], started in [s], calls
    [handle_request] for the request [request] read from [message]. *)
Definition polled (s : State) (topic_partition : TopicPartition)
    (message : ConsumerRecord) (request : Request) : State :=
  {| request := enriched request topic_partition message;
     events := events s ++ [EPoll 200 1; reading_log topic_partition] |}.

Definition missing_request_id_log (topic_partition : TopicPartition)
    (message : ConsumerRecord) : Event :=
  ELog WARNING
    "Request for topic {0} partition {1} offset {2} is missing request_id. This request has been discarded."
    [PStr (tp_topic topic_partition); PInt (tp_partition topic_partition);
     PInt (offset message)].

Definition committing_log (request_id : pyval) (topic_partition : TopicPartition)
    (message : ConsumerRecord) : Event :=
  ELog DEBUG
    "Committing request with id {0} on topic {1} for partition {2} offset {3}"
    [request_id; PStr (tp_topic topic_partition);
     PInt (tp_partition topic_partition); PInt (offset message)].

Definition adding_failed_log (request_id : pyval) : Event :=
  ELog WARNING "Adding failed request with id {0} to failed topic" [request_id].

(** The record that a specialised [handle_request] logs for an exception. *)
Definition caught_log (self : HandlerClass) (request_id : pyval) (e : exn) : Event :=
  ELog ERROR
    ("Caught exception processing " +:+
     match self with
     | KafkaLifecycleRequestQueueHandler => "lifecycle"
     | _ => "infrastructure"
     end +:+ " request {0} for topic {1}: {2}")
    [request_id; name (topic request_queue_config); PStr (str_exn e)].

(** The record that [process_request] logs before it ends the process. *)
Definition closing_log (e : exn) : Event :=
  ELog ERROR "Lifecycle request queue for topic {0} is closing due to error {1}"
    [name (topic request_queue_config); PStr (str_exn e)].

(** The [except] clause of a specialised [handle_request]: log, then
    raise the exception again. *)
Definition reraise (self : HandlerClass) (e : exn) : M pyval :=
  request ← get_request;
  record_event (caught_log self (dict_get request "request_id" PNone) e) ;;
  raise e.

(** The postal service accepts the dead-letter message of [request],
    whenever it is posted. *)
Definition accepted (payload : string) (request : Request) : Prop :=
  forall h,
    postal_service_post P h
      {| address := name (failed_topic request_queue_config);
         message := {| content := payload |} |}
      (dead_letter_key request) = Ok tt.

End Vocabulary.

(** ** Sample collaborators and requests *)

Module Sample.

(** The infrastructure request of the scenario: every required field. *)
Definition infrastructure_request : Request :=
  <["request_id" := PStr "r1"]> (
  <["template" := PStr "t"]> (
  <["template_type" := PStr "TOSCA"]> (
  <["properties" := PDict []]> (
  <["system_properties" := PDict []]> (
  <["deployment_location" := PDict []]> ∅))))).

Definition lifecycle_request : Request :=
  <["request_id" := PStr "r2"]> (
  <["lifecycle_name" := PStr "Install"]> (
  <["lifecycle_scripts" := PStr "UEsDBA=="]> (
  <["system_properties" := PDict []]> (
  <["properties" := PDict []]> (
  <["deployment_location" := PDict []]> ∅))))).

Definition topic_partition : TopicPartition :=
  {| tp_topic := "requests"; tp_partition := 0 |}.

Definition message : ConsumerRecord := {| value := "body"; offset := 7 |}.

(** The infrastructure request as the driver's handler gets it. *)
Definition handled_infrastructure_request : Request :=
  <["system_properties" := PDict []]> (
  <["properties" := PDict []]> (
  enriched infrastructure_request topic_partition message)).

Definition one_message : list (TopicPartition * list ConsumerRecord) :=
  [(topic_partition, [message])].

Definition config : RequestQueueConfig :=
  {| topic := {| name := PStr "requests" |};
     group_id := PStr "driver";
     failed_topic := {| name := PStr "requests_failed" |} |}.

(** Collaborators that never fail: the consumer returns [items], every
    message body reads as [body], the driver's handler answers [answer]
    and leaves the request as it is. *)
Definition ports (items : list (TopicPartition * list ConsumerRecord))
    (body : Request) (answer : result pyval) : Ports :=
  {| consumer_poll := fun _ _ _ => Ok items;
     consumer_commit := fun _ => Ok tt;
     consumer_close := fun _ => Ok tt;
     postal_service_post := fun _ _ _ => Ok tt;
     JsonContent_read := fun _ => Ok body;
     JsonContent_get := fun _ => Ok "{...}";
     PropValueMap := fun v => Ok v;
     uuid4 := fun _ => "6fa459ea-ee8a-3ca4-894e-db77e160355e";
     build_tree := fun _ file_name _ => Ok (PStr ("/scripts/" +:+ file_name));
     request_handler := fun _ r => (answer, r) |}.

Definition start : State := {| request := ∅; events := [] |}.

(** A complete infrastructure request whose request id is the empty
    string. *)
Definition empty_id_request : Request :=
  <["request_id" := PStr ""]> infrastructure_request.

(** Keyword arguments of the service constructor: all seven are given,
    the postal service is None and the connection address is empty. *)
Definition unchecked_kwargs : gmap string pyobj :=
  <["messaging_config" := OMessagingConfig {| connection_address := PStr "" |}]> (
  <["infrastructure_config" := OPropertiesGroup config]> (
  <["lifecycle_config" := OPropertiesGroup config]> (
  <["postal_service" := ONone]> (
  <["script_file_manager" := OService "script_file_manager"]> (
  <["infrastructure_consumer_factory" := OService "infrastructure_consumer_factory"]> (
  <["lifecycle_consumer_factory" := OService "lifecycle_consumer_factory"]> ∅)))))).

End Sample.

(** ** KafkaConsumerFactory.create_consumer *)

(** The call [KafkaConsumer(topic, bootstrap_servers=..., group_id=...,
    enable_auto_commit=..., max_poll_interval_ms=...)] that
    [create_consumer] makes and whose result it returns. *)
Record KafkaConsumerCall : Type := {
  call_topic : pyval;
  call_bootstrap_servers : pyval;
  call_group_id : pyval;
  call_enable_auto_commit : bool;
  call_max_poll_interval_ms : Z
}.

(** [create_consumer(self, max_poll_interval_ms=300000)]: the argument is
    None when the caller leaves it out. *)
Definition create_consumer (self : KafkaConsumerFactory.t)
    (max_poll_interval_ms : option Z) : M KafkaConsumerCall :=
  let max_poll_interval_ms :=
    match max_poll_interval_ms with
    | Some n => n
    | None => 300000
    end in
  logger DEBUG
    "Creating Kafka consumer for bootstrap server {0} topic {1} group {2} max_poll_interval_ms {3}"
    [KafkaConsumerFactory.self_bootstrap_servers self;
     KafkaConsumerFactory.self_topic_name self;
     KafkaConsumerFactory.self_group_id self;
     PInt max_poll_interval_ms] ;;
  ret {| call_topic := KafkaConsumerFactory.self_topic_name self;
         call_bootstrap_servers := KafkaConsumerFactory.self_bootstrap_servers self;
         call_group_id := KafkaConsumerFactory.self_group_id self;
         call_enable_auto_commit := false;
         call_max_poll_interval_ms := max_poll_interval_ms |}.

(** ** The producer side of KafkaRequestQueueService *)

(** d[key], for a dict that is not the one bound to [request] *)
Definition dict_item (d : Request) (key : string) : M pyval :=
  match d !! key with
  | Some v => ret v
  | None => raise (Exception "KeyError" key)
  end.

Section Service.

Variable P : Ports.

(** str(request), for a request that is a dict or None *)
Variable str_request : option Request -> string.

Variable self : KafkaRequestQueueService.t.

(** The request and a topic configuration as arguments of [format]:
    the objects themselves, with the attributes modelled here. *)
Definition request_value (request : option Request) : pyval :=
  match request with
  | None => PNone
  | Some r => PDict (map_to_list r)
  end.

Definition topic_value (t : TopicConfigProperties) : pyval :=
  PDict [("name", name t)].

(** Looking up [self.postal_service.post]: None and the configuration
    objects have no such attribute; any other object is taken to be the
    postal service of [P].  The message of the AttributeError names the
    class of the object: NoneType for None, and for a configuration
    object the name that its class has here. *)
Definition postal_service_post_method (o : pyobj) : M unit :=
  match o with
  | OService _ => ret tt
  | ONone =>
      raise (AttributeError "'NoneType' object has no attribute 'post'")
  | OMessagingConfig _ =>
      raise (AttributeError "'MessagingConfig' object has no attribute 'post'")
  | OPropertiesGroup _ =>
      raise (AttributeError
               "'ConfigurationPropertiesGroup' object has no attribute 'post'")
  end.

Definition queue_infrastructure_request (request : option Request) : M unit :=
  logger DEBUG "queue_infrastructure_request {0} on topic {1}"
    [PStr (str_request request);
     name (topic (KafkaRequestQueueService.self_infrastructure_request_queue_config self))] ;;
  match request with
  | None => raise (ValueError "Request must not be null")
  | Some request =>
      if missing request "request_id" then
        raise (ValueError "Request must have a request_id")
      else
        postal_service_post_method (KafkaRequestQueueService.self_postal_service self) ;;
        payload ← lift_result (JsonContent_get P request);
        request_id ← dict_item request "request_id";
        post P
          {| address :=
               name (topic (KafkaRequestQueueService.self_infrastructure_request_queue_config self));
             message := {| content := payload |} |}
          (Some request_id)
  end.

Definition queue_lifecycle_request (request : option Request) : M unit :=
  logger DEBUG "queue_lifecycle_request {0} on topic {1}"
    [request_value request;
     topic_value (topic (KafkaRequestQueueService.self_lifecycle_request_queue_config self))] ;;
  match request with
  | None => raise (ValueError "Request must not be null")
  | Some request =>
      if missing request "request_id" then
        raise (ValueError "Request must have a request_id")
      else
        postal_service_post_method (KafkaRequestQueueService.self_postal_service self) ;;
        payload ← lift_result (JsonContent_get P request);
        request_id ← dict_item request "request_id";
        post P
          {| address :=
               name (topic (KafkaRequestQueueService.self_lifecycle_request_queue_config self));
             message := {| content := payload |} |}
          (Some request_id)
  end.

End Service.

(** ** More vocabulary *)

(** A computation that never ends the process. *)
Definition no_exit {A} (m : M A) : Prop :=
  forall s out s', m s = (out, s') -> forall code, out <> SysExit code.

(** The statements of a guard of a specialised handler for a missing
    field. *)
Definition discard (P : Ports) (config : RequestQueueConfig)
    (fmt : string) (args : list pyval) : M pyval :=
  logger WARNING fmt args ;;
  handle_failed_request P config ;;
  ret (PBool false).

(** The [except] clause of [process_request]. *)
Definition log_and_exit (config : RequestQueueConfig) (e : exn) : M pyval :=
  record_event (closing_log config e) ;;
  sys_exit 1.

(** More samples: a service with a postal service, and the keyword
    arguments it is constructed from. *)
Module SampleService.

Definition lifecycle_config : RequestQueueConfig :=
  {| topic := {| name := PStr "lifecycle_requests" |};
     group_id := PStr "driver";
     failed_topic := {| name := PStr "lifecycle_requests_failed" |} |}.

Definition kwargs : gmap string pyobj :=
  <["messaging_config" := OMessagingConfig {| connection_address := PStr "kafka:9092" |}]> (
  <["infrastructure_config" := OPropertiesGroup Sample.config]> (
  <["lifecycle_config" := OPropertiesGroup lifecycle_config]> (
  <["postal_service" := OService "postal_service"]> (
  <["script_file_manager" := OService "script_file_manager"]> (
  <["infrastructure_consumer_factory" := OService "infrastructure_consumer_factory"]> (
  <["lifecycle_consumer_factory" := OService "lifecycle_consumer_factory"]> ∅)))))).

Definition service : KafkaRequestQueueService.t :=
  {| KafkaRequestQueueService.self_script_file_manager := OService "script_file_manager";
     KafkaRequestQueueService.self_bootstrap_servers := PStr "kafka:9092";
     KafkaRequestQueueService.self_infrastructure_request_queue_config := Sample.config;
     KafkaRequestQueueService.self_lifecycle_request_queue_config := lifecycle_config;
     KafkaRequestQueueService.self_postal_service := OService "postal_service";
     KafkaRequestQueueService.self_infrastructure_consumer_factory :=
       OService "infrastructure_consumer_factory";
     KafkaRequestQueueService.self_lifecycle_consumer_factory :=
       OService "lifecycle_consumer_factory" |}.

Definition str_request (request : option Request) : string :=
  match request with
  | None => "None"
  | Some _ => "{...}"
  end.

(** Collaborators as in [Sample.ports], with a consumer, a serialiser
    and a postal service that may fail. *)
Definition failing_ports
    (poll : result (list (TopicPartition * list ConsumerRecord)))
    (read : result Request) (commit : result unit)
    (serialised : result string) (posted : result unit)
    (built : result pyval) (answer : result pyval) : Ports :=
  {| consumer_poll := fun _ _ _ => poll;
     consumer_commit := fun _ => commit;
     consumer_close := fun _ => Ok tt;
     postal_service_post := fun _ _ _ => posted;
     JsonContent_read := fun _ => read;
     JsonContent_get := fun _ => serialised;
     PropValueMap := fun v => Ok v;
     uuid4 := fun _ => "6fa459ea-ee8a-3ca4-894e-db77e160355e";
     build_tree := fun _ _ _ => built;
     request_handler := fun _ r => (answer, r) |}.

End SampleService.

(** Collaborators in which, as in ignition, PropValueMap(v) is an object
    and not a dict, and the JSON serialiser refuses a request that holds
    such an object.  The object is written [PList [PStr "PropValueMap"; v]]
    here. *)
Module SampleWrapped.

Definition wrapped (v : pyval) : pyval := PList [PStr "PropValueMap"; v].

Definition is_wrapped (v : pyval) : bool :=
  match v with
  | PList [PStr tag; _] => String.eqb tag "PropValueMap"
  | _ => false
  end.

Definition not_serializable : exn :=
  Exception "TypeError" "Object of type PropValueMap is not JSON serializable".

Definition serialise (r : Request) : result string :=
  if existsb (fun kv => is_wrapped (snd kv)) (map_to_list r)
  then Err not_serializable
  else Ok "{...}".

Definition ports (items : list (TopicPartition * list ConsumerRecord))
    (body : Request) (answer : result pyval) : Ports :=
  {| consumer_poll := fun _ _ _ => Ok items;
     consumer_commit := fun _ => Ok tt;
     consumer_close := fun _ => Ok tt;
     postal_service_post := fun _ _ _ => Ok tt;
     JsonContent_read := fun _ => Ok body;
     JsonContent_get := serialise;
     PropValueMap := fun v => Ok (wrapped v);
     uuid4 := fun _ => "6fa459ea-ee8a-3ca4-894e-db77e160355e";
     build_tree := fun _ file_name _ => Ok (PStr ("/scripts/" +:+ file_name));
     request_handler := fun _ r => (answer, r) |}.

(** The infrastructure request of the scenario as the driver's handler
    gets it from these collaborators. *)
Definition handled_infrastructure_request : Request :=
  <["system_properties" := wrapped (PDict [])]> (
  <["properties" := wrapped (PDict [])]> (
  enriched Sample.infrastructure_request Sample.topic_partition Sample.message)).

End SampleWrapped.

(** * Properties *)

(** ** Running the monad *)

Lemma bind_run {A B} (m : M A) (k : A -> M B) s :
  (m ≫= k) s =
  match m s with
  | (Return a, s') => k a s'
  | (Raise e, s') => (Raise e, s')
  | (SysExit c, s') => (SysExit c, s')
  end.
Proof. reflexivity. Qed.

Lemma after_after s l1 l2 : after (after s l1) l2 = after s (l1 ++ l2).
Proof. unfold after; simpl. by rewrite app_assoc. Qed.

Lemma call_run {A} ev (port : list Event -> result A) s :
  call ev port s = (outcome_of (port (events s)), after s [ev]).
Proof.
  unfold call. rewrite !bind_run. cbn.
  destruct (port (events s)); reflexivity.
Qed.

Lemma logger_run level fmt args s :
  logger level fmt args s = (Return tt, after s [ELog level fmt args]).
Proof. reflexivity. Qed.

Lemma count_app p l1 l2 : count p (l1 ++ l2) = (count p l1 + count p l2)%nat.
Proof. unfold count. by rewrite List.filter_app, length_app. Qed.

(** ** Computations that never produce an event of some kind *)

Section Avoids.
Variable p : Event -> bool.

Lemma avoids_pure {A} (m : M A) :
  (forall s, exists out r, m s = (out, {| request := r; events := events s |})) ->
  avoids p m.
Proof.
  intros H s out s' E. destruct (H s) as (out' & r & E'). rewrite E' in E.
  inversion E; subst. exists []. simpl. by rewrite app_nil_r.
Qed.

Lemma avoids_ret {A} (a : A) : avoids p (ret a).
Proof. apply avoids_pure. intros [r h]. by exists (Return a), r. Qed.

Lemma avoids_raise {A} e : avoids p (@raise A e).
Proof. apply avoids_pure. intros [r h]. by exists (Raise e), r. Qed.

Lemma avoids_lift_result {A} (r : result A) : avoids p (lift_result r).
Proof. destruct r; [apply avoids_ret | apply avoids_raise]. Qed.

Lemma avoids_get_request : avoids p get_request.
Proof. apply avoids_pure. intros [r h]. by exists (Return r), r. Qed.

Lemma avoids_get_events : avoids p get_events.
Proof. apply avoids_pure. intros [r h]. by exists (Return h), r. Qed.

Lemma avoids_set_item k v : avoids p (set_item k v).
Proof. apply avoids_pure. intros [r h]. by exists (Return tt), (<[k:=v]> r). Qed.

Lemma avoids_get_item k : avoids p (get_item k).
Proof.
  apply avoids_pure. intros [r h]. unfold get_item. simpl.
  destruct (r !! k); eauto.
Qed.

Lemma avoids_record_event ev : p ev = false -> avoids p (record_event ev).
Proof.
  intros Hp s out s' E. inversion E; subst. exists [ev]. simpl.
  split; [done|]. unfold count. simpl. by rewrite Hp.
Qed.

Lemma avoids_bind {A B} (m : M A) (k : A -> M B) :
  avoids p m -> (forall a, avoids p (k a)) -> avoids p (m ≫= k).
Proof.
  intros Hm Hk s out s' E. rewrite bind_run in E.
  destruct (m s) as [[a|e|c] s1] eqn:E1; destruct (Hm _ _ _ E1) as (l1 & H1 & C1).
  - destruct (Hk a _ _ _ E) as (l2 & H2 & C2). exists (l1 ++ l2).
    rewrite H2, H1, count_app, C1, C2. by rewrite app_assoc.
  - inversion E; subst. eauto.
  - inversion E; subst. eauto.
Qed.

Lemma avoids_try_except {A} (m : M A) (h : exn -> M A) :
  avoids p m -> (forall e, avoids p (h e)) -> avoids p (try_except m h).
Proof.
  intros Hm Hh s out s' E. unfold try_except in E.
  destruct (m s) as [[a|e|c] s1] eqn:E1; destruct (Hm _ _ _ E1) as (l1 & H1 & C1).
  - inversion E; subst. eauto.
  - destruct (Hh e _ _ _ E) as (l2 & H2 & C2). exists (l1 ++ l2).
    rewrite H2, H1, count_app, C1, C2. by rewrite app_assoc.
  - inversion E; subst. eauto.
Qed.

Lemma avoids_call {A} ev (port : list Event -> result A) :
  p ev = false -> avoids p (call ev port).
Proof.
  intros Hp. unfold call.
  apply avoids_bind; [apply avoids_get_events|]. intros h.
  apply avoids_bind; [by apply avoids_record_event|]. intros _.
  apply avoids_lift_result.
Qed.

Lemma avoids_logger level fmt args :
  p (ELog level fmt args) = false -> avoids p (logger level fmt args).
Proof. apply avoids_record_event. Qed.

Lemma avoids_delegate P :
  (forall r, p (EHandleRequest r) = false) -> avoids p (delegate P).
Proof.
  intros Hp s out s' E. unfold delegate in E.
  destruct (request_handler P (events s) (request s)) as [[v|e] r'];
    inversion E; subst; simpl; exists [EHandleRequest (request s)];
    (split; [done|]); unfold count; simpl; by rewrite Hp.
Qed.

Lemma avoids_wrap_PropValueMap P k : avoids p (wrap_PropValueMap P k).
Proof.
  unfold wrap_PropValueMap.
  apply avoids_bind; [apply avoids_get_item|]. intros v.
  apply avoids_bind; [apply avoids_lift_result|]. intros w.
  apply avoids_set_item.
Qed.

End Avoids.

(** ** The steps of the handlers *)

Section Steps.

Variable P : Ports.
Variable cfg : RequestQueueConfig.

Lemma handle_failed_request_run s payload :
  JsonContent_get P (request s) = Ok payload ->
  handle_failed_request P cfg s =
  (outcome_of
     (postal_service_post P (events s)
        {| address := name (failed_topic cfg);
           message := {| content := payload |} |}
        (dead_letter_key (request s))),
   after s [dead_letter cfg payload (request s)]).
Proof.
  intros Hp. unfold handle_failed_request, dead_letter, dead_letter_key, dict_get.
  rewrite bind_run. cbn [get_request].
  destruct (request s !! "request_id") as [v|] eqn:E.
  - destruct (is_None v) eqn:N; cbn [negb]; rewrite bind_run, Hp;
      cbn [lift_result ret]; unfold post; by rewrite call_run.
  - cbn [is_None negb]. rewrite bind_run, Hp; cbn [lift_result ret].
    unfold post; by rewrite call_run.
Qed.

Lemma avoids_handle_failed_request p :
  (forall env key, p (EPost env key) = false) ->
  avoids p (handle_failed_request P cfg).
Proof.
  intros Hp. unfold handle_failed_request.
  apply avoids_bind; [apply avoids_get_request|]. intros r.
  destruct (negb _);
    (apply avoids_bind; [apply avoids_lift_result|]); intros payload;
    unfold post; by apply avoids_call.
Qed.

Lemma guard_present fmt key partition offset rest s :
  missing (request s) key = false ->
  guard P cfg fmt key partition offset rest s = rest s.
Proof.
  intros H. unfold guard. rewrite bind_run. cbn [get_request]. by rewrite H.
Qed.

Lemma guard_missing fmt key partition offset rest s payload :
  missing (request s) key = true ->
  JsonContent_get P (request s) = Ok payload ->
  accepted P cfg payload (request s) ->
  guard P cfg fmt key partition offset rest s =
  (Return (PBool false),
   after s [ELog WARNING fmt [partition; offset];
            dead_letter cfg payload (request s)]).
Proof.
  intros H Hp Hpost. unfold guard. rewrite bind_run. cbn [get_request].
  rewrite H. rewrite bind_run, logger_run, bind_run.
  rewrite (handle_failed_request_run _ payload) by done.
  rewrite Hpost. cbn [outcome_of]. by rewrite after_after.
Qed.

Lemma wrap_PropValueMap_run key s v w :
  request s !! key = Some v ->
  PropValueMap P v = Ok w ->
  wrap_PropValueMap P key s
  = (Return tt, {| request := <[key := w]> (request s); events := events s |}).
Proof.
  intros Hv Hw. unfold wrap_PropValueMap.
  rewrite bind_run. unfold get_item. rewrite Hv.
  by rewrite bind_run, Hw.
Qed.

Lemma avoids_guard p fmt key partition offset rest :
  (forall level f args, p (ELog level f args) = false) ->
  (forall env k, p (EPost env k) = false) ->
  avoids p rest ->
  avoids p (guard P cfg fmt key partition offset rest).
Proof.
  intros Hlog Hpost Hrest. unfold guard.
  apply avoids_bind; [apply avoids_get_request|]. intros r.
  destruct (missing r key); [|done].
  apply avoids_bind; [by apply avoids_logger|]. intros _.
  apply avoids_bind; [by apply avoids_handle_failed_request|]. intros _.
  apply avoids_ret.
Qed.

End Steps.

(** ** The specialised [handle_request] *)

Section Hooks.

Variable P : Ports.
Variable cfg : RequestQueueConfig.

Ltac check_field H payload :=
  match type of H with
  | (if missing ?r ?k then _ else _) = Some _ =>
      let E := fresh "E" in
      destruct (missing r k) eqn:E;
      [ inversion H; subst;
        rewrite (guard_missing _ _ _ _ _ _ _ _ payload) by done; reflexivity
      | rewrite guard_present by done ]
  end.

(** A request with a missing field: one warning, one dead-letter message,
    False. *)
Lemma handle_request_missing self s field payload :
  specialised self ->
  first_missing (required_fields self) (request s) = Some field ->
  JsonContent_get P (request s) = Ok payload ->
  accepted P cfg payload (request s) ->
  handle_request P cfg self s =
  (Return (PBool false),
   after s [missing_field_warning self field (request s);
            dead_letter cfg payload (request s)]).
Proof.
  intros [-> | ->] H Hp Hpost;
    unfold first_missing in H; simpl in H;
    unfold handle_request, infrastructure_handle_request,
      lifecycle_handle_request, try_except;
    rewrite bind_run; cbn [get_request];
    do 6 (check_field H payload); discriminate.
Qed.

(** A complete request passes the six checks. *)
Lemma handle_request_complete self s :
  specialised self ->
  complete (required_fields self) (request s) = true ->
  handle_request P cfg self s =
  try_except (prepare P self ;; delegate P) (reraise cfg self) s.
Proof.
  intros [-> | ->] H; simpl in H;
    repeat (apply andb_prop in H; destruct H as [?%negb_true_iff H]);
    unfold handle_request, infrastructure_handle_request,
      lifecycle_handle_request, try_except;
    rewrite bind_run; cbn [get_request];
    rewrite !guard_present by done; reflexivity.
Qed.

Lemma avoids_prepare p self :
  (forall u, p (EUuid4 u) = false) ->
  (forall f v, p (EBuildTree f v) = false) ->
  avoids p (prepare P self).
Proof.
  intros Hu Hb. destruct self; simpl.
  - apply avoids_ret.
  - unfold infrastructure_prepare.
    apply avoids_bind; [apply avoids_wrap_PropValueMap|]. intros _.
    apply avoids_wrap_PropValueMap.
  - unfold lifecycle_prepare.
    apply avoids_bind; [apply avoids_get_events|]. intros h.
    apply avoids_bind; [by apply avoids_record_event|]. intros _.
    apply avoids_bind; [apply avoids_get_item|]. intros scripts.
    apply avoids_bind; [by apply avoids_call|]. intros path.
    apply avoids_bind; [apply avoids_set_item|]. intros _.
    apply avoids_bind; [apply avoids_wrap_PropValueMap|]. intros _.
    apply avoids_wrap_PropValueMap.
Qed.

Lemma avoids_reraise p self e :
  (forall level f args, p (ELog level f args) = false) ->
  avoids p (reraise cfg self e).
Proof.
  intros Hlog. unfold reraise.
  apply avoids_bind; [apply avoids_get_request|]. intros r.
  apply avoids_bind; [apply avoids_record_event, Hlog|]. intros _.
  apply avoids_raise.
Qed.

(** A complete request is not dead-lettered by [handle_request]. *)
Lemma handle_request_complete_no_post self s out s' :
  complete (required_fields self) (request s) = true ->
  handle_request P cfg self s = (out, s') ->
  exists more, events s' = events s ++ more /\ count is_post more = 0%nat.
Proof.
  intros H E.
  assert (specialised self \/ self = KafkaRequestQueueHandler) as [Hs | ->]
    by (unfold specialised; destruct self; auto).
  - rewrite handle_request_complete in E by done.
    revert E. apply avoids_try_except.
    + apply avoids_bind; [by apply avoids_prepare|]. intros _.
      by apply avoids_delegate.
    + intros e. by apply avoids_reraise.
  - revert E. apply avoids_ret.
Qed.

(** No [handle_request] commits. *)
Lemma handle_request_no_commit self : avoids is_commit (handle_request P cfg self).
Proof.
  assert (forall rest, avoids is_commit rest ->
            forall fmt key partition offset,
              avoids is_commit (guard P cfg fmt key partition offset rest)) as G
    by (intros; by apply avoids_guard).
  destruct self; simpl.
  - apply avoids_ret.
  - apply avoids_try_except.
    + apply avoids_bind; [apply avoids_get_request|]. intros r.
      do 6 apply G.
      apply avoids_bind;
        [by apply (avoids_prepare _ KafkaInfrastructureRequestQueueHandler)|].
      intros _. by apply avoids_delegate.
    + intros e. by apply (avoids_reraise _ KafkaInfrastructureRequestQueueHandler).
  - apply avoids_try_except.
    + apply avoids_bind; [apply avoids_get_request|]. intros r.
      do 6 apply G.
      apply avoids_bind;
        [by apply (avoids_prepare _ KafkaLifecycleRequestQueueHandler)|].
      intros _. by apply avoids_delegate.
    + intros e. by apply (avoids_reraise _ KafkaLifecycleRequestQueueHandler).
Qed.

End Hooks.

(** ** [process_request] *)

Section Process.

Variable P : Ports.
Variable cfg : RequestQueueConfig.

Lemma missing_enriched request topic_partition message key :
  key ≠ "partition" -> key ≠ "offset" ->
  missing (enriched request topic_partition message) key = missing request key.
Proof.
  intros H1 H2. unfold missing, enriched.
  by rewrite !lookup_insert_ne.
Qed.

Lemma first_missing_enriched self request topic_partition message :
  first_missing (required_fields self) (enriched request topic_partition message)
  = first_missing (required_fields self) request.
Proof.
  destruct self; unfold first_missing; simpl;
    by rewrite !missing_enriched.
Qed.

Lemma complete_enriched self request topic_partition message :
  complete (required_fields self) (enriched request topic_partition message)
  = complete (required_fields self) request.
Proof.
  destruct self; unfold complete; simpl;
    by rewrite !missing_enriched.
Qed.

Lemma complete_request_id self request :
  complete (required_fields self) request = true ->
  missing request "request_id" = false.
Proof.
  destruct self; simpl; intros [H _]%andb_prop; by apply negb_true_iff.
Qed.

Lemma dead_letter_key_missing request :
  missing request "request_id" = true -> dead_letter_key request = None.
Proof.
  unfold missing, dead_letter_key.
  destruct (request !! "request_id") as [v|]; [|done]. by intros ->.
Qed.

(** The loop handles the first message of the poll result, if any. *)
Lemma process_records_first self items :
  process_records P cfg self items =
  match first_record items with
  | Some (topic_partition, message) =>
      process_message P cfg self topic_partition message
  | None => ret PNone
  end.
Proof.
  induction items as [|[topic_partition messages] rest IH]; simpl; [done|].
  by destruct messages.
Qed.

(** [process_request] up to the call of [handle_request], and what it
    does with each outcome of it. *)
Lemma process_request_hook self s items topic_partition message req out s' :
  consumer_poll P (events s) 200 1 = Ok items ->
  first_record items = Some (topic_partition, message) ->
  JsonContent_read P (value message) = Ok req ->
  missing req "request_id" = false ->
  handle_request P cfg self (polled cfg s topic_partition message req)
    = (out, s') ->
  let request_id := dict_get req "request_id" PNone in
  process_request P cfg self s =
  match out with
  | Return ok =>
      if truthy ok then
        match consumer_commit P
                (events s' ++ [committing_log request_id topic_partition message])
        with
        | Ok _ =>
            (Return (PBool true),
             after s' [committing_log request_id topic_partition message; ECommit])
        | Err e =>
            (SysExit 1,
             after s' [committing_log request_id topic_partition message; ECommit;
                       closing_log cfg e])
        end
      else
        try_except (handle_failed_request P cfg ;; ret (PBool false))
          (fun e => logger ERROR
             "Lifecycle request queue for topic {0} is closing due to error {1}"
             [name (topic cfg); PStr (str_exn e)] ;; sys_exit 1)
          (after s' [adding_failed_log request_id])
  | Raise e => (SysExit 1, after s' [closing_log cfg e])
  | SysExit code => (SysExit code, s')
  end.
Proof.
  intros Hpoll Hfirst Hread Hid Hhook request_id.
  unfold process_request, try_except at 1.
  rewrite bind_run, call_run, Hpoll. cbn [outcome_of].
  rewrite process_records_first, Hfirst.
  unfold process_message.
  rewrite bind_run, Hread. cbn [lift_result ret].
  rewrite bind_run. cbn [set_request].
  rewrite bind_run, logger_run, bind_run. cbn [get_request after request events].
  rewrite Hid.
  rewrite bind_run. cbn [set_item request events].
  rewrite bind_run. cbn [set_item request events].
  unfold after at 1 2. cbn [request events].
  rewrite <- app_assoc. cbn [app].
  change {| request := _; events := _ |}
    with (polled cfg s topic_partition message req).
  rewrite bind_run, Hhook.
  destruct out as [ok|e|code]; [|done|done].
  destruct (truthy ok).
  - rewrite bind_run, logger_run, bind_run, call_run. cbn [after events].
    fold request_id.
    destruct (consumer_commit P _) as [[]|e]; cbn [outcome_of];
      unfold after; cbn [request events]; rewrite <- ?app_assoc; [done|].
    rewrite bind_run, logger_run. unfold after; cbn [request events sys_exit].
    by rewrite <- !app_assoc.
  - rewrite bind_run, logger_run. fold request_id.
    unfold try_except, adding_failed_log. reflexivity.
Qed.

End Process.

(** * The claims *)

(** C1: when a polled message reads as a request with every required
    field and [handle_request] returns a true value, [process_request]
    returns True; among the events it adds there is exactly one commit
    and no post (nothing goes to the dead-letter topic). *)
Theorem valid_request_is_committed
    (P : Ports) (cfg : RequestQueueConfig) (self : HandlerClass) (s : State)
    (items : list (TopicPartition * list ConsumerRecord))
    (topic_partition : TopicPartition) (message : ConsumerRecord)
    (req : Request) (ok : pyval) (s' : State) :
  consumer_poll P (events s) 200 1 = Ok items ->
  first_record items = Some (topic_partition, message) ->
  JsonContent_read P (value message) = Ok req ->
  complete (required_fields self) req = true ->
  handle_request P cfg self (polled cfg s topic_partition message req)
    = (Return ok, s') ->
  truthy ok = true ->
  consumer_commit P
    (events s' ++
     [committing_log (dict_get req "request_id" PNone) topic_partition message])
    = Ok tt ->
  exists more,
    process_request P cfg self s
      = (Return (PBool true), {| request := request s'; events := events s ++ more |})
    /\ count is_commit more = 1%nat
    /\ count is_post more = 0%nat.
Proof.
  intros Hpoll Hfirst Hread Hcomplete Hhook Htrue Hcommit.
  pose proof (complete_request_id _ _ Hcomplete) as Hid.
  pose proof (process_request_hook P cfg self s _ _ _ _ _ _
                Hpoll Hfirst Hread Hid Hhook) as E.
  cbv beta iota zeta in E. rewrite Htrue, Hcommit in E.
  destruct (handle_request_no_commit P cfg self _ _ _ Hhook) as (more & Hev & Hc).
  assert (complete (required_fields self)
            (request (polled cfg s topic_partition message req)) = true) as Hc'
    by (unfold polled; cbn [request]; by rewrite complete_enriched).
  destruct (handle_request_complete_no_post P cfg self _ _ _ Hc' Hhook)
    as (more' & Hev' & Hp).
  assert (more' = more) as -> by (rewrite Hev in Hev'; by apply app_inv_head in Hev').
  exists ([EPoll 200 1; reading_log cfg topic_partition] ++ more ++
          [committing_log (dict_get req "request_id" PNone) topic_partition message;
           ECommit]).
  split; [|split].
  - rewrite E. unfold after. rewrite Hev. simpl. by rewrite <- !app_assoc.
  - rewrite !count_app, Hc. reflexivity.
  - rewrite !count_app, Hp. reflexivity.
Qed.

Lemma valid_request_is_committed_witness :
  exists more,
    process_request (Sample.ports Sample.one_message Sample.infrastructure_request
                       (Ok (PBool true)))
      Sample.config KafkaInfrastructureRequestQueueHandler Sample.start
      = (Return (PBool true),
         {| request :=
              <["system_properties" := PDict []]> (
              <["properties" := PDict []]> (
              enriched Sample.infrastructure_request Sample.topic_partition
                Sample.message));
            events := events Sample.start ++ more |})
    /\ count is_commit more = 1%nat
    /\ count is_post more = 0%nat.
Proof.
  refine (valid_request_is_committed
            (Sample.ports Sample.one_message Sample.infrastructure_request
               (Ok (PBool true)))
            Sample.config KafkaInfrastructureRequestQueueHandler Sample.start
            Sample.one_message Sample.topic_partition Sample.message
            Sample.infrastructure_request (PBool true)
            {| request :=
                 <["system_properties" := PDict []]> (
                 <["properties" := PDict []]> (
                 enriched Sample.infrastructure_request Sample.topic_partition
                   Sample.message));
               events := [EPoll 200 1;
                          reading_log Sample.config Sample.topic_partition;
                          EHandleRequest (
                            <["system_properties" := PDict []]> (
                            <["properties" := PDict []]> (
                            enriched Sample.infrastructure_request
                              Sample.topic_partition Sample.message)))] |}
            _ _ _ _ _ _ _);
    first [reflexivity | vm_compute; reflexivity].
Defined.

(** C4: when the driver's handler raises while a complete request is
    processed, [handle_request] logs the exception with the request id and
    the topic and raises it again; [process_request] then logs and ends
    the process with status 1 instead of returning.  The events of the
    call end with the handler call and the two log records, and nothing
    before them is a commit or a post. *)
Theorem handler_exception_ends_the_process
    (P : Ports) (cfg : RequestQueueConfig) (self : HandlerClass) (s : State)
    (items : list (TopicPartition * list ConsumerRecord))
    (topic_partition : TopicPartition) (message : ConsumerRecord)
    (req : Request) (s1 : State) (e : exn) (req' : Request) :
  specialised self ->
  consumer_poll P (events s) 200 1 = Ok items ->
  first_record items = Some (topic_partition, message) ->
  JsonContent_read P (value message) = Ok req ->
  complete (required_fields self) req = true ->
  prepare P self (polled cfg s topic_partition message req) = (Return tt, s1) ->
  request_handler P (events s1) (request s1) = (Err e, req') ->
  let raised :=
    [EHandleRequest (request s1);
     caught_log cfg self (dict_get req' "request_id" PNone) e] in
  handle_request P cfg self (polled cfg s topic_partition message req)
    = (Raise e, {| request := req'; events := events s1 ++ raised |})
  /\ exists before,
       process_request P cfg self s
         = (SysExit 1,
            {| request := req';
               events := events s ++ before ++ raised ++ [closing_log cfg e] |})
       /\ count is_commit before = 0%nat
       /\ count is_post before = 0%nat.
Proof.
  intros Hself Hpoll Hfirst Hread Hcomplete Hprepare Hhandler raised.
  pose proof (complete_request_id _ _ Hcomplete) as Hid.
  assert (handle_request P cfg self (polled cfg s topic_partition message req)
          = (Raise e, {| request := req'; events := events s1 ++ raised |}))
    as Hhook.
  { rewrite handle_request_complete
      by (try done; unfold polled; cbn [request]; by rewrite complete_enriched).
    unfold try_except. rewrite bind_run, Hprepare.
    unfold delegate. rewrite Hhandler.
    unfold reraise. rewrite bind_run. cbn [get_request request events].
    rewrite bind_run. cbn [record_event raise request events].
    by rewrite <- app_assoc. }
  split; [done|].
  pose proof (process_request_hook P cfg self s _ _ _ _ _ _
                Hpoll Hfirst Hread Hid Hhook) as E.
  cbv beta iota zeta in E.
  destruct (avoids_prepare P is_commit self ltac:(done) ltac:(done) _ _ _ Hprepare)
    as (more & Hev & Hc).
  destruct (avoids_prepare P is_post self ltac:(done) ltac:(done) _ _ _ Hprepare)
    as (more' & Hev' & Hp).
  assert (more' = more) as -> by (rewrite Hev in Hev'; by apply app_inv_head in Hev').
  exists ([EPoll 200 1; reading_log cfg topic_partition] ++ more).
  split; [|split].
  - rewrite E. unfold after. cbn [request events]. rewrite Hev. simpl.
    by rewrite <- !app_assoc.
  - rewrite !count_app, Hc. reflexivity.
  - rewrite !count_app, Hp. reflexivity.
Qed.

Lemma handler_exception_ends_the_process_witness :
  let P := Sample.ports Sample.one_message Sample.infrastructure_request
             (Err (Exception "RuntimeError" "boom")) in
  let raised :=
    [EHandleRequest Sample.handled_infrastructure_request;
     caught_log Sample.config KafkaInfrastructureRequestQueueHandler (PStr "r1")
       (Exception "RuntimeError" "boom")] in
  handle_request P Sample.config KafkaInfrastructureRequestQueueHandler
    (polled Sample.config Sample.start Sample.topic_partition Sample.message
       Sample.infrastructure_request)
    = (Raise (Exception "RuntimeError" "boom"),
       {| request := Sample.handled_infrastructure_request;
          events := [EPoll 200 1; reading_log Sample.config Sample.topic_partition]
                    ++ raised |})
  /\ exists before,
       process_request P Sample.config KafkaInfrastructureRequestQueueHandler
         Sample.start
         = (SysExit 1,
            {| request := Sample.handled_infrastructure_request;
               events := events Sample.start ++ before ++ raised ++
                         [closing_log Sample.config
                            (Exception "RuntimeError" "boom")] |})
       /\ count is_commit before = 0%nat
       /\ count is_post before = 0%nat.
Proof.
  refine (handler_exception_ends_the_process
            (Sample.ports Sample.one_message Sample.infrastructure_request
               (Err (Exception "RuntimeError" "boom")))
            Sample.config KafkaInfrastructureRequestQueueHandler Sample.start
            Sample.one_message Sample.topic_partition Sample.message
            Sample.infrastructure_request
            {| request := Sample.handled_infrastructure_request;
               events := [EPoll 200 1;
                          reading_log Sample.config Sample.topic_partition] |}
            (Exception "RuntimeError" "boom")
            Sample.handled_infrastructure_request
            _ _ _ _ _ _ _);
    first [by left | reflexivity | vm_compute; reflexivity].
Defined.

(** C10: a polled request that has a request id but lacks another field
    required by the specialised handler is posted to the dead-letter topic
    twice, once by the specialised [handle_request] and once more by
    [process_request] when it sees False. *)
Theorem missing_field_is_dead_lettered_twice
    (P : Ports) (cfg : RequestQueueConfig) (self : HandlerClass) (s : State)
    (items : list (TopicPartition * list ConsumerRecord))
    (topic_partition : TopicPartition) (message : ConsumerRecord)
    (req : Request) (field : string) (payload : string) :
  specialised self ->
  consumer_poll P (events s) 200 1 = Ok items ->
  first_record items = Some (topic_partition, message) ->
  JsonContent_read P (value message) = Ok req ->
  missing req "request_id" = false ->
  first_missing (required_fields self) req = Some field ->
  JsonContent_get P (enriched req topic_partition message) = Ok payload ->
  accepted P cfg payload (enriched req topic_partition message) ->
  let failed := enriched req topic_partition message in
  let added :=
    [EPoll 200 1;
     reading_log cfg topic_partition;
     missing_field_warning self field failed;
     dead_letter cfg payload failed;
     adding_failed_log (dict_get req "request_id" PNone);
     dead_letter cfg payload failed] in
  process_request P cfg self s
    = (Return (PBool false), {| request := failed; events := events s ++ added |})
  /\ count is_post added = 2%nat.
Proof.
  intros Hself Hpoll Hfirst Hread Hid Hmissing Hpayload Hpost failed added.
  split; [|reflexivity].
  assert (handle_request P cfg self (polled cfg s topic_partition message req)
          = (Return (PBool false),
             after (polled cfg s topic_partition message req)
               [missing_field_warning self field failed;
                dead_letter cfg payload failed])) as Hhook.
  { apply handle_request_missing; try done.
    unfold polled; cbn [request]. by rewrite first_missing_enriched. }
  pose proof (process_request_hook P cfg self s _ _ _ _ _ _
                Hpoll Hfirst Hread Hid Hhook) as E.
  cbv beta iota zeta in E. cbn [truthy] in E.
  rewrite E. unfold try_except.
  rewrite bind_run, (handle_failed_request_run _ _ _ payload) by done.
  unfold after at 1 2 3, polled. cbn [request events]. fold failed.
  rewrite Hpost. cbn [outcome_of ret].
  unfold after, added. cbn [request events]. by rewrite <- !app_assoc.
Qed.

Lemma missing_field_is_dead_lettered_twice_witness :
  let failed :=
    enriched (delete "template" Sample.infrastructure_request)
      Sample.topic_partition Sample.message in
  let added :=
    [EPoll 200 1;
     reading_log Sample.config Sample.topic_partition;
     missing_field_warning KafkaInfrastructureRequestQueueHandler "template" failed;
     dead_letter Sample.config "{...}" failed;
     adding_failed_log (PStr "r1");
     dead_letter Sample.config "{...}" failed] in
  process_request
    (Sample.ports Sample.one_message (delete "template" Sample.infrastructure_request)
       (Ok (PBool true)))
    Sample.config KafkaInfrastructureRequestQueueHandler Sample.start
    = (Return (PBool false),
       {| request := failed; events := events Sample.start ++ added |})
  /\ count is_post added = 2%nat.
Proof.
  refine (missing_field_is_dead_lettered_twice
            (Sample.ports Sample.one_message
               (delete "template" Sample.infrastructure_request) (Ok (PBool true)))
            Sample.config KafkaInfrastructureRequestQueueHandler Sample.start
            Sample.one_message Sample.topic_partition Sample.message
            (delete "template" Sample.infrastructure_request)
            "template" "{...}" _ _ _ _ _ _ _ _);
    first [by left | reflexivity | intros h; reflexivity
          | vm_compute; reflexivity].
Defined.

(** C5 (as amended): when the polled message reads as a request whose
    request id is absent or None, [process_request] logs a warning, posts
    the request to the dead-letter topic without a key and returns False;
    it does nothing else: no further check, no call of [handle_request]. *)
Theorem missing_request_id_is_dead_lettered
    (P : Ports) (cfg : RequestQueueConfig) (self : HandlerClass) (s : State)
    (items : list (TopicPartition * list ConsumerRecord))
    (topic_partition : TopicPartition) (message : ConsumerRecord)
    (req : Request) (payload : string) :
  consumer_poll P (events s) 200 1 = Ok items ->
  first_record items = Some (topic_partition, message) ->
  JsonContent_read P (value message) = Ok req ->
  missing req "request_id" = true ->
  JsonContent_get P req = Ok payload ->
  accepted P cfg payload req ->
  process_request P cfg self s
    = (Return (PBool false),
       {| request := req;
          events := events s ++
            [EPoll 200 1;
             reading_log cfg topic_partition;
             missing_request_id_log topic_partition message;
             EPost {| address := name (failed_topic cfg);
                      message := {| content := payload |} |} None] |}).
Proof.
  intros Hpoll Hfirst Hread Hid Hpayload Hpost.
  unfold process_request, try_except.
  rewrite bind_run, call_run, Hpoll. cbn [outcome_of].
  rewrite process_records_first, Hfirst.
  unfold process_message.
  rewrite bind_run, Hread. cbn [lift_result ret].
  rewrite bind_run. cbn [set_request].
  rewrite bind_run, logger_run, bind_run. cbn [get_request after request events].
  rewrite Hid.
  rewrite bind_run, logger_run, bind_run.
  rewrite (handle_failed_request_run _ _ _ payload) by done.
  unfold after at 1 2 3 4. cbn [request events].
  rewrite Hpost. cbn [outcome_of ret].
  unfold after, dead_letter. cbn [request events].
  rewrite dead_letter_key_missing by done.
  by rewrite <- !app_assoc.
Qed.

Lemma missing_request_id_is_dead_lettered_witness :
  process_request
    (Sample.ports Sample.one_message (delete "request_id" Sample.infrastructure_request)
       (Ok (PBool true)))
    Sample.config KafkaInfrastructureRequestQueueHandler Sample.start
    = (Return (PBool false),
       {| request := delete "request_id" Sample.infrastructure_request;
          events := events Sample.start ++
            [EPoll 200 1;
             reading_log Sample.config Sample.topic_partition;
             missing_request_id_log Sample.topic_partition Sample.message;
             EPost {| address := PStr "requests_failed";
                      message := {| content := "{...}" |} |} None] |}).
Proof.
  refine (missing_request_id_is_dead_lettered
            (Sample.ports Sample.one_message
               (delete "request_id" Sample.infrastructure_request) (Ok (PBool true)))
            Sample.config KafkaInfrastructureRequestQueueHandler Sample.start
            Sample.one_message Sample.topic_partition Sample.message
            (delete "request_id" Sample.infrastructure_request)
            "{...}" _ _ _ _ _ _);
    first [reflexivity | intros h; reflexivity | vm_compute; reflexivity].
Defined.

(** C5 as stated fails for an empty request id: a complete infrastructure
    request whose request id is the empty string goes through
    [handle_request] to the driver's handler, is committed and
    [process_request] returns True; nothing is dead-lettered. *)
Lemma empty_request_id_is_processed :
  let run :=
    process_request
      (Sample.ports Sample.one_message Sample.empty_id_request (Ok (PBool true)))
      Sample.config KafkaInfrastructureRequestQueueHandler Sample.start in
  Sample.empty_id_request !! "request_id" = Some (PStr "")
  /\ fst run = Return (PBool true)
  /\ fst run <> Return (PBool false)
  /\ count is_delegate_call (events (snd run)) = 1%nat
  /\ count is_commit (events (snd run)) = 1%nat
  /\ count is_post (events (snd run)) = 0%nat.
Proof.
  cbv zeta. repeat split; try (vm_compute; reflexivity).
  vm_compute. discriminate.
Qed.

(** C6: when the poll result has no message, [process_request] falls out
    of its loop: it returns None, not False.  It has then done nothing but
    the poll: no commit, no post, the request is untouched. *)
Theorem no_record_returns_None
    (P : Ports) (cfg : RequestQueueConfig) (self : HandlerClass) (s : State)
    (items : list (TopicPartition * list ConsumerRecord)) :
  consumer_poll P (events s) 200 1 = Ok items ->
  first_record items = None ->
  process_request P cfg self s = (Return PNone, after s [EPoll 200 1])
  /\ Return PNone <> Return (PBool false).
Proof.
  intros Hpoll Hfirst. split; [|done].
  unfold process_request, try_except.
  rewrite bind_run, call_run, Hpoll. cbn [outcome_of].
  by rewrite process_records_first, Hfirst.
Qed.

Lemma no_record_returns_None_witness :
  process_request (Sample.ports [] Sample.infrastructure_request (Ok (PBool true)))
    Sample.config KafkaInfrastructureRequestQueueHandler Sample.start
    = (Return PNone, after Sample.start [EPoll 200 1])
  /\ Return PNone <> Return (PBool false).
Proof.
  refine (no_record_returns_None
            (Sample.ports [] Sample.infrastructure_request (Ok (PBool true)))
            Sample.config KafkaInfrastructureRequestQueueHandler Sample.start
            [] _ _); reflexivity.
Defined.

(** C2: the infrastructure [handle_request] checks request_id, template,
    template_type, properties, system_properties and deployment_location
    in this order; for the first one that is absent or None it logs the
    warning of that field, posts the request to the dead-letter topic and
    returns False.  It does nothing else: the driver's handler is not
    called and nothing is committed. *)
Theorem infrastructure_fields_are_checked_in_order
    (P : Ports) (cfg : RequestQueueConfig) (s : State)
    (field : string) (payload : string) :
  first_missing
    ["request_id"; "template"; "template_type"; "properties";
     "system_properties"; "deployment_location"] (request s) = Some field ->
  JsonContent_get P (request s) = Ok payload ->
  accepted P cfg payload (request s) ->
  let added :=
    [missing_field_warning KafkaInfrastructureRequestQueueHandler field (request s);
     dead_letter cfg payload (request s)] in
  handle_request P cfg KafkaInfrastructureRequestQueueHandler s
    = (Return (PBool false), after s added)
  /\ count is_delegate_call added = 0%nat
  /\ count is_commit added = 0%nat.
Proof.
  intros Hmissing Hpayload Hpost added.
  split; [|by split].
  apply handle_request_missing; try done. by left.
Qed.

Lemma infrastructure_fields_are_checked_in_order_witness :
  let s :=
    {| request := delete "properties" (delete "system_properties"
                    Sample.infrastructure_request);
       events := [] |} in
  let added :=
    [ELog WARNING
       "Infrastructure request for partition {0} offset {1} is missing properties. This request has been discarded"
       [PNone; PNone];
     EPost {| address := PStr "requests_failed";
              message := {| content := "{...}" |} |} (Some (PStr "r1"))] in
  handle_request
    (Sample.ports Sample.one_message Sample.infrastructure_request (Ok (PBool true)))
    Sample.config KafkaInfrastructureRequestQueueHandler s
    = (Return (PBool false), after s added)
  /\ count is_delegate_call added = 0%nat
  /\ count is_commit added = 0%nat.
Proof.
  refine (infrastructure_fields_are_checked_in_order
            (Sample.ports Sample.one_message Sample.infrastructure_request
               (Ok (PBool true)))
            Sample.config
            {| request := delete "properties" (delete "system_properties"
                            Sample.infrastructure_request);
               events := [] |}
            "properties" "{...}" _ _ _);
    first [reflexivity | intros h; reflexivity | vm_compute; reflexivity].
Defined.



(** C8: for a lifecycle request with every required field, the lifecycle
    [handle_request] draws a new identifier from uuid4, calls build_tree
    with that identifier and the request's lifecycle_scripts, stores the
    returned path under lifecycle_path, and only then calls the driver's
    handler, which gets the request with that path.  When a required
    field is missing it returns False with the request unchanged
    (lifecycle_path is not set) and build_tree is not called. *)
Theorem lifecycle_scripts_are_materialised
    (P : Ports) (cfg : RequestQueueConfig) (s : State) :
  (forall scripts properties system_properties path wrapped wrapped_system,
     complete lifecycle_required (request s) = true ->
     request s !! "lifecycle_scripts" = Some scripts ->
     request s !! "properties" = Some properties ->
     request s !! "system_properties" = Some system_properties ->
     let file_name := uuid4 P (events s) in
     build_tree P (events s ++ [EUuid4 file_name]) file_name scripts = Ok path ->
     PropValueMap P properties = Ok wrapped ->
     PropValueMap P system_properties = Ok wrapped_system ->
     let prepared :=
       <["system_properties" := wrapped_system]> (
       <["properties" := wrapped]> (
       <["lifecycle_path" := path]> (request s))) in
     let h := events s ++ [EUuid4 file_name; EBuildTree file_name scripts] in
     prepared !! "lifecycle_path" = Some path
     /\ handle_request P cfg KafkaLifecycleRequestQueueHandler s
        = match request_handler P h prepared with
          | (Ok v, req') =>
              (Return v,
               {| request := req'; events := h ++ [EHandleRequest prepared] |})
          | (Err e, req') =>
              (Raise e,
               {| request := req';
                  events := h ++
                    [EHandleRequest prepared;
                     caught_log cfg KafkaLifecycleRequestQueueHandler
                       (dict_get req' "request_id" PNone) e] |})
          end)
  /\
  (forall field payload,
     first_missing lifecycle_required (request s) = Some field ->
     JsonContent_get P (request s) = Ok payload ->
     accepted P cfg payload (request s) ->
     let added :=
       [missing_field_warning KafkaLifecycleRequestQueueHandler field (request s);
        dead_letter cfg payload (request s)] in
     handle_request P cfg KafkaLifecycleRequestQueueHandler s
       = (Return (PBool false), {| request := request s; events := events s ++ added |})
     /\ count is_build_tree added = 0%nat).
Proof.
  split.
  - intros scripts properties system_properties path wrapped wrapped_system
      Hcomplete Hscripts Hprops Hsys file_name Hbuild Hwrap Hwrap_sys prepared h.
    split.
    { unfold prepared. rewrite !lookup_insert_ne by done. apply lookup_insert_eq. }
    rewrite handle_request_complete by (try done; by right).
    assert (prepare P KafkaLifecycleRequestQueueHandler s
            = (Return tt, {| request := prepared; events := h |})) as Hprepare.
    { cbn [prepare]. unfold lifecycle_prepare.
      rewrite bind_run. cbn [get_events]. fold file_name.
      rewrite bind_run. cbn [record_event].
      rewrite bind_run. unfold get_item at 1. cbn [request events]. rewrite Hscripts.
      rewrite bind_run, call_run. cbn [request events]. rewrite Hbuild.
      cbn [outcome_of]. rewrite bind_run. cbn [set_item after request events].
      rewrite bind_run.
      rewrite (wrap_PropValueMap_run _ _ _ properties wrapped)
        by (try done; cbn [request]; by rewrite lookup_insert_ne).
      rewrite (wrap_PropValueMap_run _ _ _ system_properties wrapped_system)
        by (try done; cbn [request]; by rewrite !lookup_insert_ne).
      cbn [request events].
      unfold h. by rewrite <- app_assoc. }
    unfold try_except. rewrite bind_run, Hprepare.
    unfold delegate. cbn [request events].
    destruct (request_handler P h prepared) as [[v|e] req']; [done|].
    unfold reraise. rewrite bind_run. cbn [get_request request events].
    rewrite bind_run. cbn [record_event raise request events].
    by rewrite <- app_assoc.
  - intros field payload Hmissing Hpayload Hpost added.
    split; [|reflexivity].
    apply handle_request_missing; try done. by right.
Qed.

Lemma lifecycle_scripts_are_materialised_witness :
  let P := Sample.ports Sample.one_message Sample.lifecycle_request
             (Ok (PBool true)) in
  let complete_state := {| request := Sample.lifecycle_request; events := [] |} in
  let incomplete_state :=
    {| request := delete "lifecycle_scripts" Sample.lifecycle_request;
       events := [] |} in
  let file_name := "6fa459ea-ee8a-3ca4-894e-db77e160355e" in
  let path := PStr "/scripts/6fa459ea-ee8a-3ca4-894e-db77e160355e" in
  let prepared :=
    <["system_properties" := PDict []]> (
    <["properties" := PDict []]> (
    <["lifecycle_path" := path]> Sample.lifecycle_request)) in
  (prepared !! "lifecycle_path" = Some path
   /\ handle_request P Sample.config KafkaLifecycleRequestQueueHandler complete_state
      = (Return (PBool true),
         {| request := prepared;
            events := [EUuid4 file_name;
                       EBuildTree file_name (PStr "UEsDBA==");
                       EHandleRequest prepared] |}))
  /\
  (let added :=
     [missing_field_warning KafkaLifecycleRequestQueueHandler "lifecycle_scripts"
        (request incomplete_state);
      dead_letter Sample.config "{...}" (request incomplete_state)] in
   handle_request P Sample.config KafkaLifecycleRequestQueueHandler incomplete_state
     = (Return (PBool false),
        {| request := request incomplete_state; events := [] ++ added |})
   /\ count is_build_tree added = 0%nat).
Proof.
  cbv zeta. split.
  - refine (proj1 (lifecycle_scripts_are_materialised
                     (Sample.ports Sample.one_message Sample.lifecycle_request
                        (Ok (PBool true)))
                     Sample.config
                     {| request := Sample.lifecycle_request; events := [] |})
              (PStr "UEsDBA==") (PDict []) (PDict [])
              (PStr "/scripts/6fa459ea-ee8a-3ca4-894e-db77e160355e")
              (PDict []) (PDict []) _ _ _ _ _ _ _);
      first [reflexivity | vm_compute; reflexivity].
  - refine (proj2 (lifecycle_scripts_are_materialised
                     (Sample.ports Sample.one_message Sample.lifecycle_request
                        (Ok (PBool true)))
                     Sample.config
                     {| request := delete "lifecycle_scripts" Sample.lifecycle_request;
                        events := [] |})
              "lifecycle_scripts" "{...}" _ _ _);
      first [reflexivity | intros h; reflexivity | vm_compute; reflexivity].
Defined.

(** C9 (as amended): constructing a consumer factory with a connection
    address, a topic name or a group id that is None or empty raises
    ValueError; constructing the service without one of its seven keyword
    arguments raises ValueError.  Both happen in the constructor. *)
Theorem construction_checks :
  (forall request_queue_config messaging_config,
     None_or_empty (connection_address messaging_config) = true \/
     None_or_empty (name (topic request_queue_config)) = true \/
     None_or_empty (group_id request_queue_config) = true ->
     exists msg,
       KafkaConsumerFactory.init request_queue_config messaging_config
       = Err (ValueError msg))
  /\
  (forall (kwargs : gmap string pyobj) key,
     In key required_kwargs ->
     kwargs !! key = None ->
     exists msg, KafkaRequestQueueService.init kwargs = Err (ValueError msg)).
Proof.
  split.
  - intros request_queue_config messaging_config H.
    unfold KafkaConsumerFactory.init.
    destruct (None_or_empty (connection_address messaging_config)); [eauto|].
    destruct (None_or_empty (name (topic request_queue_config))); [eauto|].
    destruct (None_or_empty (group_id request_queue_config)); [eauto|].
    by destruct H as [H | [H | H]].
  - intros kwargs key Hin Hkey.
    unfold KafkaRequestQueueService.init.
    do 7 (match goal with
          | |- context [KafkaRequestQueueService.not_in ?k kwargs] =>
              destruct (KafkaRequestQueueService.not_in k kwargs) eqn:?; [eauto|]
          end).
    unfold KafkaRequestQueueService.not_in in *.
    simpl in Hin.
    repeat (destruct Hin as [<- | Hin]; [by rewrite Hkey in *|]).
    done.
Qed.

Lemma construction_checks_witness :
  (exists msg,
     KafkaConsumerFactory.init Sample.config {| connection_address := PStr "" |}
     = Err (ValueError msg))
  /\
  (exists msg,
     KafkaRequestQueueService.init (delete "postal_service" Sample.unchecked_kwargs)
     = Err (ValueError msg)).
Proof.
  split.
  - refine (proj1 construction_checks Sample.config
              {| connection_address := PStr "" |} _).
    left. reflexivity.
  - refine (proj2 construction_checks
              (delete "postal_service" Sample.unchecked_kwargs)
              "postal_service" _ _).
    + simpl. tauto.
    + vm_compute. reflexivity.
Defined.

(** C9 as stated fails for the service: with all seven keyword arguments
    given, a postal service that is None and an empty connection address
    are accepted, and the service is constructed. *)
Lemma service_accepts_None_and_empty :
  Sample.unchecked_kwargs !! "postal_service" = Some ONone
  /\ exists service,
       KafkaRequestQueueService.init Sample.unchecked_kwargs = Ok service
       /\ KafkaRequestQueueService.self_postal_service service = ONone
       /\ KafkaRequestQueueService.self_bootstrap_servers service = PStr ""
       /\ None_or_empty (KafkaRequestQueueService.self_bootstrap_servers service)
          = true.
Proof.
  split; [vm_compute; reflexivity|].
  eexists. split; [vm_compute; reflexivity|].
  repeat split.
Qed.

(** * More properties of the handlers *)

(** ** Computations that never end the process *)

Lemma no_exit_ret {A} (a : A) : no_exit (ret a).
Proof. intros s out s' E code. by inversion E. Qed.

Lemma no_exit_raise {A} e : no_exit (@raise A e).
Proof. intros s out s' E code. by inversion E. Qed.

Lemma no_exit_lift_result {A} (r : result A) : no_exit (lift_result r).
Proof. destruct r; [apply no_exit_ret | apply no_exit_raise]. Qed.

Lemma no_exit_returns {A} (m : M A) :
  (forall s, exists a s', m s = (Return a, s')) -> no_exit m.
Proof.
  intros H s out s' E code. destruct (H s) as (a & s1 & E1).
  rewrite E1 in E. by inversion E.
Qed.

Lemma no_exit_record_event ev : no_exit (record_event ev).
Proof. apply no_exit_returns. intros s. by eexists _, _. Qed.

Lemma no_exit_bind {A B} (m : M A) (k : A -> M B) :
  no_exit m -> (forall a, no_exit (k a)) -> no_exit (m ≫= k).
Proof.
  intros Hm Hk s out s' E code. rewrite bind_run in E.
  destruct (m s) as [[a|e|c] s1] eqn:E1.
  - by apply (Hk a _ _ _ E).
  - by inversion E.
  - by destruct (Hm _ _ _ E1 c).
Qed.

Lemma no_exit_try_except {A} (m : M A) (h : exn -> M A) :
  no_exit m -> (forall e, no_exit (h e)) -> no_exit (try_except m h).
Proof.
  intros Hm Hh s out s' E code. unfold try_except in E.
  destruct (m s) as [[a|e|c] s1] eqn:E1.
  - by inversion E.
  - by apply (Hh e _ _ _ E).
  - by destruct (Hm _ _ _ E1 c).
Qed.

Lemma no_exit_call {A} ev (port : list Event -> result A) : no_exit (call ev port).
Proof.
  unfold call.
  apply no_exit_bind; [apply no_exit_returns; intros s; by eexists _, _|].
  intros h. apply no_exit_bind; [apply no_exit_record_event|]. intros _.
  apply no_exit_lift_result.
Qed.

Lemma no_exit_get_item key : no_exit (get_item key).
Proof.
  intros s out s' E code. unfold get_item in E.
  destruct (request s !! key); by inversion E.
Qed.

Lemma no_exit_handle_failed_request P cfg : no_exit (handle_failed_request P cfg).
Proof.
  unfold handle_failed_request.
  apply no_exit_bind; [apply no_exit_returns; intros s; by eexists _, _|].
  intros r. destruct (negb _);
    (apply no_exit_bind; [apply no_exit_lift_result|]); intros payload;
    apply no_exit_call.
Qed.

Lemma no_exit_guard P cfg fmt key partition offset rest :
  no_exit rest -> no_exit (guard P cfg fmt key partition offset rest).
Proof.
  intros Hrest. unfold guard.
  apply no_exit_bind; [apply no_exit_returns; intros s; by eexists _, _|].
  intros r. destruct (missing r key); [|done].
  apply no_exit_bind; [apply no_exit_record_event|]. intros _.
  apply no_exit_bind; [apply no_exit_handle_failed_request|]. intros _.
  apply no_exit_ret.
Qed.

Lemma no_exit_wrap_PropValueMap P key : no_exit (wrap_PropValueMap P key).
Proof.
  unfold wrap_PropValueMap.
  apply no_exit_bind; [apply no_exit_get_item|]. intros v.
  apply no_exit_bind; [apply no_exit_lift_result|]. intros w.
  apply no_exit_returns. intros s. by eexists _, _.
Qed.

Lemma no_exit_delegate P : no_exit (delegate P).
Proof.
  intros s out s' E code. unfold delegate in E.
  destruct (request_handler P (events s) (request s)) as [[v|e] r'];
    by inversion E.
Qed.

Lemma no_exit_prepare P self : no_exit (prepare P self).
Proof.
  destruct self; simpl.
  - apply no_exit_ret.
  - apply no_exit_bind; [apply no_exit_wrap_PropValueMap|]. intros _.
    apply no_exit_wrap_PropValueMap.
  - unfold lifecycle_prepare.
    apply no_exit_bind; [apply no_exit_returns; intros s; by eexists _, _|].
    intros h. apply no_exit_bind; [apply no_exit_record_event|]. intros _.
    apply no_exit_bind; [apply no_exit_get_item|]. intros scripts.
    apply no_exit_bind; [apply no_exit_call|]. intros path.
    apply no_exit_bind; [apply no_exit_returns; intros s; by eexists _, _|].
    intros _.
    apply no_exit_bind; [apply no_exit_wrap_PropValueMap|]. intros _.
    apply no_exit_wrap_PropValueMap.
Qed.

Lemma no_exit_reraise cfg self e : no_exit (reraise cfg self e).
Proof.
  unfold reraise.
  apply no_exit_bind; [apply no_exit_returns; intros s; by eexists _, _|].
  intros r. apply no_exit_bind; [apply no_exit_record_event|]. intros _.
  apply no_exit_raise.
Qed.

(** No [handle_request] ends the process. *)
Lemma no_exit_handle_request P cfg self : no_exit (handle_request P cfg self).
Proof.
  destruct self; simpl.
  - apply no_exit_ret.
  - apply no_exit_try_except.
    + apply no_exit_bind; [apply no_exit_returns; intros s; by eexists _, _|].
      intros r. do 6 apply no_exit_guard.
      apply no_exit_bind;
        [apply (no_exit_prepare P KafkaInfrastructureRequestQueueHandler)|].
      intros _. apply no_exit_delegate.
    + intros e. apply (no_exit_reraise cfg KafkaInfrastructureRequestQueueHandler).
  - apply no_exit_try_except.
    + apply no_exit_bind; [apply no_exit_returns; intros s; by eexists _, _|].
      intros r. do 6 apply no_exit_guard.
      apply no_exit_bind;
        [apply (no_exit_prepare P KafkaLifecycleRequestQueueHandler)|].
      intros _. apply no_exit_delegate.
    + intros e. apply (no_exit_reraise cfg KafkaLifecycleRequestQueueHandler).
Qed.

(** ** The failure paths of the steps *)

Section MoreSteps.

Variable P : Ports.
Variable cfg : RequestQueueConfig.

(** [handle_failed_request], whatever the serialiser does. *)
Lemma handle_failed_request_cases s :
  handle_failed_request P cfg s =
  match JsonContent_get P (request s) with
  | Err e => (Raise e, s)
  | Ok payload =>
      (outcome_of
         (postal_service_post P (events s)
            {| address := name (failed_topic cfg);
               message := {| content := payload |} |}
            (dead_letter_key (request s))),
       after s [dead_letter cfg payload (request s)])
  end.
Proof.
  destruct (JsonContent_get P (request s)) as [payload|e] eqn:E.
  - by apply handle_failed_request_run.
  - unfold handle_failed_request. rewrite bind_run. cbn [get_request].
    destruct (negb _); by rewrite bind_run, E.
Qed.

Lemma discard_run fmt args s :
  discard P cfg fmt args s =
  match JsonContent_get P (request s) with
  | Err e => (Raise e, after s [ELog WARNING fmt args])
  | Ok payload =>
      match postal_service_post P (events s ++ [ELog WARNING fmt args])
              {| address := name (failed_topic cfg);
                 message := {| content := payload |} |}
              (dead_letter_key (request s))
      with
      | Ok _ =>
          (Return (PBool false),
           after s [ELog WARNING fmt args; dead_letter cfg payload (request s)])
      | Err e =>
          (Raise e,
           after s [ELog WARNING fmt args; dead_letter cfg payload (request s)])
      end
  end.
Proof.
  unfold discard. rewrite bind_run, logger_run, bind_run.
  rewrite handle_failed_request_cases. cbn [after request events].
  destruct (JsonContent_get P (request s)) as [payload|e]; [|done].
  destruct (postal_service_post P _ _ _) as [[]|e]; cbn [outcome_of];
    unfold after; cbn [request events]; by rewrite <- app_assoc.
Qed.

Lemma guard_discard fmt key partition offset rest s :
  missing (request s) key = true ->
  guard P cfg fmt key partition offset rest s
  = discard P cfg fmt [partition; offset] s.
Proof.
  intros H. unfold guard, discard. rewrite bind_run. cbn [get_request].
  by rewrite H.
Qed.

Lemma reraise_run self e s :
  reraise cfg self e s
  = (Raise e, after s [caught_log cfg self (dict_get (request s) "request_id" PNone) e]).
Proof. reflexivity. Qed.

Lemma log_and_exit_run e s :
  log_and_exit cfg e s = (SysExit 1, after s [closing_log cfg e]).
Proof. reflexivity. Qed.

Lemma first_missing_None fields (r : Request) :
  first_missing fields r = None -> complete fields r = true.
Proof.
  unfold first_missing, complete.
  induction fields as [|key fields IH]; simpl; [done|].
  destruct (missing r key); [done|]. simpl. apply IH.
Qed.

Lemma complete_first_missing fields (r : Request) :
  complete fields r = true -> first_missing fields r = None.
Proof.
  unfold first_missing, complete.
  induction fields as [|key fields IH]; simpl; [done|].
  destruct (missing r key); [done|]. simpl. apply IH.
Qed.

Ltac discard_field H :=
  match type of H with
  | (if missing ?r ?k then _ else _) = Some _ =>
      let E := fresh "E" in
      destruct (missing r k) eqn:E;
      [ inversion H; subst; rewrite guard_discard by done; reflexivity
      | rewrite guard_present by done ]
  end.

(** An incomplete request only goes through the guard of its first
    missing field. *)
Lemma handle_request_incomplete self s field :
  specialised self ->
  first_missing (required_fields self) (request s) = Some field ->
  handle_request P cfg self s =
  try_except
    (discard P cfg
       (kind_name self +:+ " request for partition {0} offset {1} is missing " +:+
        field +:+ ". This request has been discarded")
       [dict_get (request s) "partition" PNone; dict_get (request s) "offset" PNone])
    (reraise cfg self) s.
Proof.
  intros [-> | ->] H;
    unfold first_missing in H; simpl in H;
    unfold handle_request, infrastructure_handle_request,
      lifecycle_handle_request, try_except;
    rewrite bind_run; cbn [get_request];
    do 6 (discard_field H); discriminate.
Qed.

(** What [process_request] does once it has warned about a request, in
    the state [t]: it posts the request to the dead-letter topic and
    returns False, or ends the process when that fails. *)
Lemma final_dead_letter t :
  try_except (handle_failed_request P cfg ;; ret (PBool false)) (log_and_exit cfg) t =
  match JsonContent_get P (request t) with
  | Err e => (SysExit 1, after t [closing_log cfg e])
  | Ok payload =>
      match postal_service_post P (events t)
              {| address := name (failed_topic cfg);
                 message := {| content := payload |} |}
              (dead_letter_key (request t))
      with
      | Ok _ => (Return (PBool false), after t [dead_letter cfg payload (request t)])
      | Err e =>
          (SysExit 1, after t [dead_letter cfg payload (request t); closing_log cfg e])
      end
  end.
Proof.
  unfold try_except. rewrite bind_run, handle_failed_request_cases.
  destruct (JsonContent_get P (request t)) as [payload|e]; [|done].
  destruct (postal_service_post P _ _ _) as [[]|e]; cbn [outcome_of]; [done|].
  by rewrite log_and_exit_run, after_after.
Qed.

Lemma process_request_unfold self s :
  process_request P cfg self s =
  try_except
    (call (EPoll 200 1) (fun h => consumer_poll P h 200 1)
       ≫= process_records P cfg self)
    (log_and_exit cfg) s.
Proof. reflexivity. Qed.

(** [process_request] for a message without a request id. *)
Lemma process_request_no_id self s items topic_partition message req :
  consumer_poll P (events s) 200 1 = Ok items ->
  first_record items = Some (topic_partition, message) ->
  JsonContent_read P (value message) = Ok req ->
  missing req "request_id" = true ->
  process_request P cfg self s =
  try_except (handle_failed_request P cfg ;; ret (PBool false)) (log_and_exit cfg)
    {| request := req;
       events := events s ++
         [EPoll 200 1; reading_log cfg topic_partition;
          missing_request_id_log topic_partition message] |}.
Proof.
  intros Hpoll Hfirst Hread Hid.
  rewrite process_request_unfold. unfold try_except at 1.
  rewrite bind_run, call_run, Hpoll. cbn [outcome_of].
  rewrite process_records_first, Hfirst.
  unfold process_message.
  rewrite bind_run, Hread. cbn [lift_result ret].
  rewrite bind_run. cbn [set_request].
  rewrite bind_run, logger_run, bind_run. cbn [get_request after request events].
  rewrite Hid.
  rewrite bind_run, logger_run.
  unfold after. cbn [request events]. rewrite <- !app_assoc. reflexivity.
Qed.

End MoreSteps.

(** ** Every run of [handle_request] and of [process_request] *)

Section Runs.

Variable P : Ports.
Variable cfg : RequestQueueConfig.

Lemma prepare_quiet self s out s1 :
  prepare P self s = (out, s1) ->
  exists more,
    events s1 = events s ++ more
    /\ count is_commit more = 0%nat
    /\ count is_post more = 0%nat
    /\ count is_delegate_call more = 0%nat.
Proof.
  intros E.
  destruct (avoids_prepare P is_commit self ltac:(done) ltac:(done) _ _ _ E)
    as (more & Hev & Hc).
  destruct (avoids_prepare P is_post self ltac:(done) ltac:(done) _ _ _ E)
    as (more1 & Hev1 & Hp).
  destruct (avoids_prepare P is_delegate_call self ltac:(done) ltac:(done) _ _ _ E)
    as (more2 & Hev2 & Hd).
  assert (more1 = more) as -> by (rewrite Hev in Hev1; by apply app_inv_head in Hev1).
  assert (more2 = more) as -> by (rewrite Hev in Hev2; by apply app_inv_head in Hev2).
  by exists more.
Qed.

(** A [handle_request] that returns a true value has passed every check,
    prepared the request and got that value from the driver's handler. *)
Lemma handle_request_true self s ok s' :
  handle_request P cfg self s = (Return ok, s') ->
  truthy ok = true ->
  specialised self
  /\ complete (required_fields self) (request s) = true
  /\ exists s1,
       prepare P self s = (Return tt, s1)
       /\ request_handler P (events s1) (request s1) = (Ok ok, request s')
       /\ events s' = events s1 ++ [EHandleRequest (request s1)].
Proof.
  intros H Htrue.
  assert (specialised self) as Hself.
  { destruct self; [|by left|by right].
    inversion H; subst. discriminate. }
  split; [done|].
  destruct (first_missing (required_fields self) (request s)) as [field|] eqn:Hfirst.
  - exfalso. rewrite (handle_request_incomplete _ _ _ _ field) in H by done.
    unfold try_except in H. rewrite discard_run in H.
    destruct (JsonContent_get P (request s)) as [payload|e].
    + destruct (postal_service_post P _ _ _) as [[]|e].
      * inversion H; subst. discriminate.
      * by rewrite reraise_run in H.
    + by rewrite reraise_run in H.
  - apply first_missing_None in Hfirst. split; [done|].
    rewrite handle_request_complete in H by done.
    unfold try_except in H. rewrite bind_run in H.
    destruct (prepare P self s) as [[[]|e|c] s1] eqn:Hprepare.
    + exists s1. split; [done|].
      unfold delegate in H.
      destruct (request_handler P (events s1) (request s1)) as [[v|e] r'].
      * by inversion H; subst.
      * by rewrite reraise_run in H.
    + by rewrite reraise_run in H.
    + done.
Qed.

(** The four ways in which [process_request] ends. *)
Lemma process_request_cases self s out s' :
  process_request P cfg self s = (out, s') ->
  (out = SysExit 1
   /\ exists before e,
        events s' = events s ++ before ++ [closing_log cfg e]
        /\ (count is_commit before = 0%nat
            \/ exists handled,
                 before = handled ++ [ECommit]
                 /\ specialised self
                 /\ count is_commit handled = 0%nat
                 /\ count is_post handled = 0%nat
                 /\ count is_delegate_call handled = 1%nat))
  \/ (out = Return PNone /\ s' = after s [EPoll 200 1])
  \/ (out = Return (PBool false)
      /\ exists before payload,
           JsonContent_get P (request s') = Ok payload
           /\ events s' = events s ++ before ++ [dead_letter cfg payload (request s')]
           /\ count is_commit before = 0%nat)
  \/ (out = Return (PBool true)
      /\ exists before,
           events s' = events s ++ before ++ [ECommit]
           /\ specialised self
           /\ count is_commit before = 0%nat
           /\ count is_post before = 0%nat
           /\ count is_delegate_call before = 1%nat).
Proof.
  intros H.
  destruct (consumer_poll P (events s) 200 1) as [items|e] eqn:Hpoll.
  2:{ left. rewrite process_request_unfold in H. unfold try_except in H.
      rewrite bind_run, call_run, Hpoll in H. cbn [outcome_of] in H.
      rewrite log_and_exit_run, after_after in H. inversion H; subst.
      split; [done|]. exists [EPoll 200 1], e. split; [reflexivity|by left]. }
  destruct (first_record items) as [[topic_partition message]|] eqn:Hfirst.
  2:{ right; left. rewrite process_request_unfold in H. unfold try_except in H.
      rewrite bind_run, call_run, Hpoll in H. cbn [outcome_of] in H.
      rewrite process_records_first, Hfirst in H. by inversion H. }
  destruct (JsonContent_read P (value message)) as [req|e] eqn:Hread.
  2:{ left. rewrite process_request_unfold in H. unfold try_except in H.
      rewrite bind_run, call_run, Hpoll in H. cbn [outcome_of] in H.
      rewrite process_records_first, Hfirst in H. unfold process_message in H.
      rewrite bind_run, Hread in H. cbn [lift_result raise] in H.
      rewrite log_and_exit_run, after_after in H. inversion H; subst.
      split; [done|]. exists [EPoll 200 1], e. split; [reflexivity|by left]. }
  destruct (missing req "request_id") eqn:Hid.
  { rewrite (process_request_no_id P cfg self s _ _ _ _ Hpoll Hfirst Hread Hid) in H.
    rewrite final_dead_letter in H. cbn [request events] in H.
    destruct (JsonContent_get P req) as [payload|e] eqn:Hser.
    - destruct (postal_service_post P _ _ _) as [[]|e]; inversion H; subst.
      + right; right; left. split; [done|].
        exists [EPoll 200 1; reading_log cfg topic_partition;
                missing_request_id_log topic_partition message], payload.
        cbn [after request events]. split; [done|]. by rewrite <- !app_assoc.
      + left. split; [done|].
        exists [EPoll 200 1; reading_log cfg topic_partition;
                missing_request_id_log topic_partition message;
                dead_letter cfg payload req], e.
        cbn [after request events]. split; [by rewrite <- !app_assoc|by left].
    - inversion H; subst. left. split; [done|].
      exists [EPoll 200 1; reading_log cfg topic_partition;
              missing_request_id_log topic_partition message], e.
      cbn [after request events]. split; [by rewrite <- !app_assoc|by left]. }
  destruct (handle_request P cfg self (polled cfg s topic_partition message req))
    as [hook t] eqn:Hhook.
  pose proof (process_request_hook P cfg self s _ _ _ _ _ _
                Hpoll Hfirst Hread Hid Hhook) as E.
  cbv beta zeta in E. rewrite E in H. clear E.
  destruct (handle_request_no_commit P cfg self _ _ _ Hhook) as (more & Hev & Hc).
  cbn [polled events] in Hev.
  destruct hook as [ok|e|code].
  - destruct (truthy ok) eqn:Htrue.
    + destruct (handle_request_true _ _ _ _ Hhook Htrue)
        as (Hself & Hcomplete & s1 & Hprepare & Hhandler & Hev1).
      destruct (prepare_quiet _ _ _ _ Hprepare) as (pre & Hpre & Hc1 & Hp1 & Hd1).
      cbn [polled events] in Hpre.
      destruct (consumer_commit P _) as [[]|e]; inversion H; subst.
      * right; right; right. split; [done|].
        exists ([EPoll 200 1; reading_log cfg topic_partition] ++ pre ++
                [EHandleRequest (request s1);
                 committing_log (dict_get req "request_id" PNone)
                   topic_partition message]).
        cbn [after request events]. rewrite Hev1, Hpre.
        split; [by rewrite <- !app_assoc|].
        rewrite !count_app, Hc1, Hp1, Hd1. by repeat split.
      * left. split; [done|].
        exists (([EPoll 200 1; reading_log cfg topic_partition] ++ pre ++
                 [EHandleRequest (request s1);
                  committing_log (dict_get req "request_id" PNone)
                    topic_partition message]) ++ [ECommit]), e.
        cbn [after request events]. rewrite Hev1, Hpre.
        split; [by rewrite <- !app_assoc|].
        right. eexists. split; [reflexivity|].
        rewrite !count_app, Hc1, Hp1, Hd1. by repeat split.
    + change (fun e : exn => _) with (log_and_exit cfg) in H.
      rewrite final_dead_letter in H. cbn [after request events] in H.
      destruct (JsonContent_get P (request t)) as [payload|e] eqn:Hser.
      * destruct (postal_service_post P _ _ _) as [[]|e]; inversion H; subst.
        -- right; right; left. split; [done|].
           exists ([EPoll 200 1; reading_log cfg topic_partition] ++ more ++
                   [adding_failed_log (dict_get req "request_id" PNone)]), payload.
           cbn [after request events]. split; [done|]. rewrite Hev.
           split; [by rewrite <- !app_assoc|].
           rewrite !count_app, Hc. reflexivity.
        -- left. split; [done|].
           exists ([EPoll 200 1; reading_log cfg topic_partition] ++ more ++
                   [adding_failed_log (dict_get req "request_id" PNone);
                    dead_letter cfg payload (request t)]), e.
           cbn [after request events]. rewrite Hev.
           split; [by rewrite <- !app_assoc|].
           left. rewrite !count_app, Hc. reflexivity.
      * inversion H; subst. left. split; [done|].
        exists ([EPoll 200 1; reading_log cfg topic_partition] ++ more ++
                [adding_failed_log (dict_get req "request_id" PNone)]), e.
        cbn [after request events]. rewrite Hev.
        split; [by rewrite <- !app_assoc|].
        left. rewrite !count_app, Hc. reflexivity.
  - inversion H; subst. left. split; [done|].
    exists ([EPoll 200 1; reading_log cfg topic_partition] ++ more), e.
    cbn [after request events]. rewrite Hev.
    split; [by rewrite <- !app_assoc|].
    left. rewrite !count_app, Hc. reflexivity.
  - by destruct (no_exit_handle_request P cfg self _ _ _ Hhook code).
Qed.

End Runs.

(** * A request that the driver's handler rejects *)

(** C3: when the driver's handler returns a false value for a complete
    request, [handle_request] returns that value and [process_request]
    warns and tries to dead-letter the request as it then is, with
    properties and system_properties replaced by PropValueMap objects.
    When the serialiser refuses this request, nothing is posted and False
    is not returned: [process_request] logs the error and ends the process
    with status 1.  Nothing is committed either. *)
Theorem rejected_request_is_not_dead_lettered
    (P : Ports) (cfg : RequestQueueConfig) (self : HandlerClass) (s : State)
    (items : list (TopicPartition * list ConsumerRecord))
    (topic_partition : TopicPartition) (message : ConsumerRecord)
    (req : Request) (s1 : State) (ok : pyval) (req' : Request) (e : exn) :
  specialised self ->
  consumer_poll P (events s) 200 1 = Ok items ->
  first_record items = Some (topic_partition, message) ->
  JsonContent_read P (value message) = Ok req ->
  complete (required_fields self) req = true ->
  prepare P self (polled cfg s topic_partition message req) = (Return tt, s1) ->
  request_handler P (events s1) (request s1) = (Ok ok, req') ->
  truthy ok = false ->
  JsonContent_get P req' = Err e ->
  handle_request P cfg self (polled cfg s topic_partition message req)
    = (Return ok,
       {| request := req'; events := events s1 ++ [EHandleRequest (request s1)] |})
  /\ exists before,
       process_request P cfg self s
         = (SysExit 1,
            {| request := req';
               events := events s ++ before ++
                 [EHandleRequest (request s1);
                  adding_failed_log (dict_get req "request_id" PNone);
                  closing_log cfg e] |})
       /\ count is_commit before = 0%nat
       /\ count is_post before = 0%nat.
Proof.
  intros Hself Hpoll Hfirst Hread Hcomplete Hprepare Hhandler Hfalse Hser.
  pose proof (complete_request_id _ _ Hcomplete) as Hid.
  assert (handle_request P cfg self (polled cfg s topic_partition message req)
          = (Return ok,
             {| request := req';
                events := events s1 ++ [EHandleRequest (request s1)] |}))
    as Hhook.
  { rewrite handle_request_complete
      by (try done; unfold polled; cbn [request]; by rewrite complete_enriched).
    unfold try_except. rewrite bind_run, Hprepare.
    unfold delegate. by rewrite Hhandler. }
  split; [done|].
  pose proof (process_request_hook P cfg self s _ _ _ _ _ _
                Hpoll Hfirst Hread Hid Hhook) as E.
  cbv beta iota zeta in E. rewrite Hfalse in E.
  change (fun e : exn => _) with (log_and_exit cfg) in E.
  rewrite final_dead_letter in E. cbn [after request events] in E.
  rewrite Hser in E.
  destruct (prepare_quiet P self _ _ _ Hprepare) as (pre & Hpre & Hc & Hp & _).
  cbn [polled events] in Hpre.
  exists ([EPoll 200 1; reading_log cfg topic_partition] ++ pre).
  split; [|split].
  - rewrite E. unfold after. cbn [request events]. rewrite Hpre.
    by rewrite <- !app_assoc.
  - by rewrite count_app, Hc.
  - by rewrite count_app, Hp.
Qed.

Lemma rejected_request_is_not_dead_lettered_witness :
  let P :=
    SampleWrapped.ports Sample.one_message Sample.infrastructure_request
      (Ok (PBool false)) in
  let polled_state :=
    polled Sample.config Sample.start Sample.topic_partition Sample.message
      Sample.infrastructure_request in
  handle_request P Sample.config KafkaInfrastructureRequestQueueHandler polled_state
    = (Return (PBool false),
       {| request := SampleWrapped.handled_infrastructure_request;
          events := events polled_state ++
            [EHandleRequest SampleWrapped.handled_infrastructure_request] |})
  /\ exists before,
       process_request P Sample.config KafkaInfrastructureRequestQueueHandler
         Sample.start
         = (SysExit 1,
            {| request := SampleWrapped.handled_infrastructure_request;
               events := events Sample.start ++ before ++
                 [EHandleRequest SampleWrapped.handled_infrastructure_request;
                  adding_failed_log (PStr "r1");
                  closing_log Sample.config SampleWrapped.not_serializable] |})
       /\ count is_commit before = 0%nat
       /\ count is_post before = 0%nat.
Proof.
  refine (rejected_request_is_not_dead_lettered
            (SampleWrapped.ports Sample.one_message Sample.infrastructure_request
               (Ok (PBool false)))
            Sample.config KafkaInfrastructureRequestQueueHandler Sample.start
            Sample.one_message Sample.topic_partition Sample.message
            Sample.infrastructure_request
            {| request := SampleWrapped.handled_infrastructure_request;
               events := [EPoll 200 1;
                          reading_log Sample.config Sample.topic_partition] |}
            (PBool false) SampleWrapped.handled_infrastructure_request
            SampleWrapped.not_serializable
            _ _ _ _ _ _ _ _ _);
    first [by left | reflexivity | vm_compute; reflexivity].
Defined.

(** * More properties *)

(** X1: [process_request] lets no exception escape: it returns True,
    False or None, or it ends the process with status 1. *)
Theorem process_request_never_raises
    (P : Ports) (cfg : RequestQueueConfig) (self : HandlerClass) (s : State) :
  let out := fst (process_request P cfg self s) in
  out = Return (PBool true) \/ out = Return (PBool false)
  \/ out = Return PNone \/ out = SysExit 1.
Proof.
  destruct (process_request P cfg self s) as [out s'] eqn:E. simpl.
  destruct (process_request_cases P cfg self s out s' E)
    as [[-> _] | [[-> _] | [[-> _] | [-> _]]]]; auto.
Qed.

(** X2: in every run of [process_request], whatever the collaborators do,
    commit is called at most once, and when it is called, nothing has been
    posted to the dead-letter topic and the driver's handler has been
    called exactly once. *)
Theorem commit_excludes_dead_letter
    (P : Ports) (cfg : RequestQueueConfig) (self : HandlerClass) (s : State) :
  exists more,
    events (snd (process_request P cfg self s)) = events s ++ more
    /\ (count is_commit more <= 1)%nat
    /\ (count is_commit more = 1%nat ->
        count is_post more = 0%nat /\ count is_delegate_call more = 1%nat).
Proof.
  destruct (process_request P cfg self s) as [out s'] eqn:E. simpl.
  destruct (process_request_cases P cfg self s out s' E)
    as [(_ & before & e & Hev & Hc) | [[_ ->] | [H | H]]].
  - exists (before ++ [closing_log cfg e]). split; [done|].
    change (count is_commit (before ++ [closing_log cfg e]))
      with (count is_commit (before ++ [ELog ERROR
              "Lifecycle request queue for topic {0} is closing due to error {1}"
              [name (topic cfg); PStr (str_exn e)]])).
    destruct Hc as [Hc | (handled & -> & _ & Hc & Hp & Hd)].
    + rewrite count_app, Hc. cbn. split; [lia|]. discriminate.
    + rewrite !count_app, Hc, Hp, Hd. cbn. split; [lia|]. done.
  - exists [EPoll 200 1]. split; [done|]. cbn. split; [lia|]. discriminate.
  - destruct H as (_ & before & payload & _ & Hev & Hc).
    exists (before ++ [dead_letter cfg payload (request s')]). split; [done|].
    rewrite count_app, Hc. cbn. split; [lia|]. discriminate.
  - destruct H as (_ & before & Hev & _ & Hc & Hp & Hd).
    exists (before ++ [ECommit]). split; [done|].
    rewrite !count_app, Hc, Hp, Hd. cbn. split; [lia|]. done.
Qed.

(** X3: when [process_request] returns True, the handler is one of the
    two subclasses and the last thing done is the commit; before it there
    is no other commit, no post, and exactly one call of the driver's
    handler. *)
Theorem true_means_committed
    (P : Ports) (cfg : RequestQueueConfig) (self : HandlerClass) (s : State) :
  fst (process_request P cfg self s) = Return (PBool true) ->
  exists before,
    events (snd (process_request P cfg self s)) = events s ++ before ++ [ECommit]
    /\ specialised self
    /\ count is_commit before = 0%nat
    /\ count is_post before = 0%nat
    /\ count is_delegate_call before = 1%nat.
Proof.
  destruct (process_request P cfg self s) as [out s'] eqn:E. simpl. intros ->.
  destruct (process_request_cases P cfg self s _ s' E)
    as [[? _] | [[? _] | [[? _] | [_ H]]]]; try discriminate.
  exact H.
Qed.

Lemma true_means_committed_witness :
  exists before,
    events (snd (process_request
                   (Sample.ports Sample.one_message Sample.lifecycle_request
                      (Ok (PBool true)))
                   Sample.config KafkaLifecycleRequestQueueHandler Sample.start))
      = events Sample.start ++ before ++ [ECommit]
    /\ specialised KafkaLifecycleRequestQueueHandler
    /\ count is_commit before = 0%nat
    /\ count is_post before = 0%nat
    /\ count is_delegate_call before = 1%nat.
Proof.
  refine (true_means_committed
            (Sample.ports Sample.one_message Sample.lifecycle_request
               (Ok (PBool true)))
            Sample.config KafkaLifecycleRequestQueueHandler Sample.start _).
  vm_compute. reflexivity.
Defined.

(** X4: when [process_request] returns False, nothing has been committed
    and the last thing done is the post of the request, as it then is, to
    the failed topic: the body of the message is the serialisation of the
    request and its key is the request id when there is one. *)
Theorem false_means_dead_lettered
    (P : Ports) (cfg : RequestQueueConfig) (self : HandlerClass) (s : State) :
  fst (process_request P cfg self s) = Return (PBool false) ->
  let s' := snd (process_request P cfg self s) in
  exists before payload,
    JsonContent_get P (request s') = Ok payload
    /\ events s' = events s ++ before ++ [dead_letter cfg payload (request s')]
    /\ count is_commit before = 0%nat.
Proof.
  destruct (process_request P cfg self s) as [out s'] eqn:E. simpl. intros ->.
  destruct (process_request_cases P cfg self s _ s' E)
    as [[? _] | [[? _] | [[_ H] | [? _]]]]; try discriminate.
  exact H.
Qed.

Lemma false_means_dead_lettered_witness :
  let P :=
    SampleWrapped.ports Sample.one_message
      (delete "template" Sample.infrastructure_request) (Ok (PBool true)) in
  let s' :=
    snd (process_request P Sample.config KafkaInfrastructureRequestQueueHandler
           Sample.start) in
  exists before payload,
    JsonContent_get P (request s') = Ok payload
    /\ events s' = events Sample.start ++ before ++
                   [dead_letter Sample.config payload (request s')]
    /\ count is_commit before = 0%nat.
Proof.
  refine (false_means_dead_lettered
            (SampleWrapped.ports Sample.one_message
               (delete "template" Sample.infrastructure_request) (Ok (PBool true)))
            Sample.config KafkaInfrastructureRequestQueueHandler Sample.start _).
  vm_compute. reflexivity.
Defined.

(** X5: a handler of the base class, whose [handle_request] is [pass],
    never returns True and never commits. *)
Theorem base_handler_never_commits
    (P : Ports) (cfg : RequestQueueConfig) (s : State) :
  let run := process_request P cfg KafkaRequestQueueHandler s in
  fst run <> Return (PBool true)
  /\ exists more,
       events (snd run) = events s ++ more /\ count is_commit more = 0%nat.
Proof.
  assert (~ specialised KafkaRequestQueueHandler) as Hbase
    by (intros [H | H]; discriminate).
  destruct (process_request P cfg KafkaRequestQueueHandler s) as [out s'] eqn:E.
  simpl.
  destruct (process_request_cases P cfg _ s out s' E)
    as [(-> & before & e & Hev & Hc) | [[-> ->] | [H | H]]].
  - split; [done|]. exists (before ++ [closing_log cfg e]). split; [done|].
    destruct Hc as [Hc | (handled & _ & Hs & _)]; [|by destruct Hbase].
    by rewrite count_app, Hc.
  - split; [done|]. by exists [EPoll 200 1].
  - destruct H as (-> & before & payload & _ & Hev & Hc). split; [done|].
    exists (before ++ [dead_letter cfg payload (request s')]). split; [done|].
    by rewrite count_app, Hc.
  - destruct H as (_ & before & _ & Hs & _). by destruct Hbase.
Qed.

(** X6: when the poll raises, [process_request] logs the error and ends
    the process with status 1; it has done nothing else. *)
Theorem poll_error_ends_the_process
    (P : Ports) (cfg : RequestQueueConfig) (self : HandlerClass) (s : State)
    (e : exn) :
  consumer_poll P (events s) 200 1 = Err e ->
  process_request P cfg self s
    = (SysExit 1, after s [EPoll 200 1; closing_log cfg e]).
Proof.
  intros Hpoll. rewrite process_request_unfold. unfold try_except.
  rewrite bind_run, call_run, Hpoll. cbn [outcome_of].
  by rewrite log_and_exit_run, after_after.
Qed.

Lemma poll_error_ends_the_process_witness :
  let P :=
    SampleService.failing_ports (Err (Exception "KafkaError" "no brokers"))
      (Ok Sample.infrastructure_request) (Ok tt) (Ok "{...}") (Ok tt)
      (Ok PNone) (Ok (PBool true)) in
  process_request P Sample.config KafkaInfrastructureRequestQueueHandler Sample.start
    = (SysExit 1,
       after Sample.start
         [EPoll 200 1;
          closing_log Sample.config (Exception "KafkaError" "no brokers")]).
Proof.
  refine (poll_error_ends_the_process
            (SampleService.failing_ports (Err (Exception "KafkaError" "no brokers"))
               (Ok Sample.infrastructure_request) (Ok tt) (Ok "{...}") (Ok tt)
               (Ok PNone) (Ok (PBool true)))
            Sample.config KafkaInfrastructureRequestQueueHandler Sample.start
            (Exception "KafkaError" "no brokers") _).
  reflexivity.
Defined.

(** X7: a message whose body cannot be read as JSON is neither
    dead-lettered nor committed: [process_request] logs the error and ends
    the process with status 1. *)
Theorem unreadable_message_ends_the_process
    (P : Ports) (cfg : RequestQueueConfig) (self : HandlerClass) (s : State)
    (items : list (TopicPartition * list ConsumerRecord))
    (topic_partition : TopicPartition) (message : ConsumerRecord) (e : exn) :
  consumer_poll P (events s) 200 1 = Ok items ->
  first_record items = Some (topic_partition, message) ->
  JsonContent_read P (value message) = Err e ->
  process_request P cfg self s
    = (SysExit 1, after s [EPoll 200 1; closing_log cfg e]).
Proof.
  intros Hpoll Hfirst Hread. rewrite process_request_unfold. unfold try_except.
  rewrite bind_run, call_run, Hpoll. cbn [outcome_of].
  rewrite process_records_first, Hfirst. unfold process_message.
  rewrite bind_run, Hread. cbn [lift_result raise].
  by rewrite log_and_exit_run, after_after.
Qed.

Lemma unreadable_message_ends_the_process_witness :
  let P :=
    SampleService.failing_ports (Ok Sample.one_message)
      (Err (Exception "JSONDecodeError" "Expecting value"))
      (Ok tt) (Ok "{...}") (Ok tt) (Ok PNone) (Ok (PBool true)) in
  process_request P Sample.config KafkaInfrastructureRequestQueueHandler Sample.start
    = (SysExit 1,
       after Sample.start
         [EPoll 200 1;
          closing_log Sample.config
            (Exception "JSONDecodeError" "Expecting value")]).
Proof.
  refine (unreadable_message_ends_the_process
            (SampleService.failing_ports (Ok Sample.one_message)
               (Err (Exception "JSONDecodeError" "Expecting value"))
               (Ok tt) (Ok "{...}") (Ok tt) (Ok PNone) (Ok (PBool true)))
            Sample.config KafkaInfrastructureRequestQueueHandler Sample.start
            Sample.one_message Sample.topic_partition Sample.message
            (Exception "JSONDecodeError" "Expecting value") _ _ _);
    reflexivity.
Defined.

(** X8: when the commit raises after [handle_request] has returned a true
    value, [process_request] logs the error and ends the process with
    status 1: the request has been handled and its offset is not
    committed. *)
Theorem commit_error_ends_the_process
    (P : Ports) (cfg : RequestQueueConfig) (self : HandlerClass) (s : State)
    (items : list (TopicPartition * list ConsumerRecord))
    (topic_partition : TopicPartition) (message : ConsumerRecord)
    (req : Request) (ok : pyval) (s' : State) (e : exn) :
  consumer_poll P (events s) 200 1 = Ok items ->
  first_record items = Some (topic_partition, message) ->
  JsonContent_read P (value message) = Ok req ->
  missing req "request_id" = false ->
  handle_request P cfg self (polled cfg s topic_partition message req)
    = (Return ok, s') ->
  truthy ok = true ->
  consumer_commit P
    (events s' ++
     [committing_log (dict_get req "request_id" PNone) topic_partition message])
    = Err e ->
  process_request P cfg self s
    = (SysExit 1,
       after s'
         [committing_log (dict_get req "request_id" PNone) topic_partition message;
          ECommit; closing_log cfg e]).
Proof.
  intros Hpoll Hfirst Hread Hid Hhook Htrue Hcommit.
  pose proof (process_request_hook P cfg self s _ _ _ _ _ _
                Hpoll Hfirst Hread Hid Hhook) as E.
  cbv beta iota zeta in E. by rewrite Htrue, Hcommit in E.
Qed.

Lemma commit_error_ends_the_process_witness :
  let P :=
    SampleService.failing_ports (Ok Sample.one_message)
      (Ok Sample.infrastructure_request)
      (Err (Exception "CommitFailedError" "rebalanced"))
      (Ok "{...}") (Ok tt) (Ok PNone) (Ok (PBool true)) in
  process_request P Sample.config KafkaInfrastructureRequestQueueHandler Sample.start
    = (SysExit 1,
       {| request := Sample.handled_infrastructure_request;
          events :=
            [EPoll 200 1;
             reading_log Sample.config Sample.topic_partition;
             EHandleRequest Sample.handled_infrastructure_request;
             committing_log (PStr "r1") Sample.topic_partition Sample.message;
             ECommit;
             closing_log Sample.config
               (Exception "CommitFailedError" "rebalanced")] |}).
Proof.
  refine (commit_error_ends_the_process
            (SampleService.failing_ports (Ok Sample.one_message)
               (Ok Sample.infrastructure_request)
               (Err (Exception "CommitFailedError" "rebalanced"))
               (Ok "{...}") (Ok tt) (Ok PNone) (Ok (PBool true)))
            Sample.config KafkaInfrastructureRequestQueueHandler Sample.start
            Sample.one_message Sample.topic_partition Sample.message
            Sample.infrastructure_request (PBool true)
            {| request := Sample.handled_infrastructure_request;
               events :=
                 [EPoll 200 1;
                  reading_log Sample.config Sample.topic_partition;
                  EHandleRequest Sample.handled_infrastructure_request] |}
            (Exception "CommitFailedError" "rebalanced") _ _ _ _ _ _ _);
    first [reflexivity | vm_compute; reflexivity].
Defined.

(** X9: a polled request without a request id, whatever the serialiser
    and the postal service do: the request is posted to the failed topic
    without a key and False is returned; when the serialisation raises
    nothing is posted, and when it or the post raises the process ends
    with status 1.  [handle_request] is not called on any of these
    paths. *)
Theorem request_without_id_is_never_handled
    (P : Ports) (cfg : RequestQueueConfig) (self : HandlerClass) (s : State)
    (items : list (TopicPartition * list ConsumerRecord))
    (topic_partition : TopicPartition) (message : ConsumerRecord)
    (req : Request) :
  consumer_poll P (events s) 200 1 = Ok items ->
  first_record items = Some (topic_partition, message) ->
  JsonContent_read P (value message) = Ok req ->
  missing req "request_id" = true ->
  let warned :=
    {| request := req;
       events := events s ++
         [EPoll 200 1; reading_log cfg topic_partition;
          missing_request_id_log topic_partition message] |} in
  process_request P cfg self s =
  match JsonContent_get P req with
  | Err e => (SysExit 1, after warned [closing_log cfg e])
  | Ok payload =>
      let envelope :=
        {| address := name (failed_topic cfg);
           message := {| content := payload |} |} in
      match postal_service_post P (events warned) envelope None with
      | Ok _ => (Return (PBool false), after warned [EPost envelope None])
      | Err e => (SysExit 1, after warned [EPost envelope None; closing_log cfg e])
      end
  end.
Proof.
  intros Hpoll Hfirst Hread Hid warned.
  rewrite (process_request_no_id P cfg self s _ _ _ _ Hpoll Hfirst Hread Hid).
  rewrite final_dead_letter. fold warned. cbn [request warned].
  unfold dead_letter. by rewrite (dead_letter_key_missing _ Hid).
Qed.

Lemma request_without_id_is_never_handled_witness :
  let P :=
    SampleService.failing_ports (Ok Sample.one_message)
      (Ok (delete "request_id" Sample.infrastructure_request)) (Ok tt)
      (Err (Exception "TypeError" "not JSON serializable")) (Ok tt)
      (Ok PNone) (Ok (PBool true)) in
  process_request P Sample.config KafkaInfrastructureRequestQueueHandler Sample.start
    = (SysExit 1,
       {| request := delete "request_id" Sample.infrastructure_request;
          events :=
            [EPoll 200 1;
             reading_log Sample.config Sample.topic_partition;
             missing_request_id_log Sample.topic_partition Sample.message;
             closing_log Sample.config
               (Exception "TypeError" "not JSON serializable")] |}).
Proof.
  refine (request_without_id_is_never_handled
            (SampleService.failing_ports (Ok Sample.one_message)
               (Ok (delete "request_id" Sample.infrastructure_request)) (Ok tt)
               (Err (Exception "TypeError" "not JSON serializable")) (Ok tt)
               (Ok PNone) (Ok (PBool true)))
            Sample.config KafkaInfrastructureRequestQueueHandler Sample.start
            Sample.one_message Sample.topic_partition Sample.message
            (delete "request_id" Sample.infrastructure_request) _ _ _ _);
    first [reflexivity | vm_compute; reflexivity].
Defined.

(** X10: an infrastructure or lifecycle request with a missing field,
    whatever the serialiser and the postal service do: [handle_request]
    warns about the first missing field and tries to dead-letter the
    request; it returns False when that succeeds, and otherwise logs the
    exception and raises it again.  On every path the request is left as
    it was and neither build_tree nor the driver's handler is called. *)
Theorem incomplete_request_never_reaches_the_handler
    (P : Ports) (cfg : RequestQueueConfig) (self : HandlerClass) (s : State)
    (field : string) :
  specialised self ->
  first_missing (required_fields self) (request s) = Some field ->
  let warning := missing_field_warning self field (request s) in
  let request_id := dict_get (request s) "request_id" PNone in
  handle_request P cfg self s =
  match JsonContent_get P (request s) with
  | Err e => (Raise e, after s [warning; caught_log cfg self request_id e])
  | Ok payload =>
      match postal_service_post P (events s ++ [warning])
              {| address := name (failed_topic cfg);
                 message := {| content := payload |} |}
              (dead_letter_key (request s))
      with
      | Ok _ =>
          (Return (PBool false),
           after s [warning; dead_letter cfg payload (request s)])
      | Err e =>
          (Raise e,
           after s [warning; dead_letter cfg payload (request s);
                    caught_log cfg self request_id e])
      end
  end.
Proof.
  intros Hself Hfirst warning request_id.
  rewrite (handle_request_incomplete P cfg self s field) by done.
  unfold try_except. rewrite discard_run.
  fold (missing_field_warning self field (request s)). fold warning.
  destruct (JsonContent_get P (request s)) as [payload|e].
  - destruct (postal_service_post P _ _ _) as [[]|e]; [done|].
    by rewrite reraise_run, after_after.
  - by rewrite reraise_run, after_after.
Qed.

Lemma incomplete_request_never_reaches_the_handler_witness :
  let P :=
    SampleService.failing_ports (Ok Sample.one_message)
      (Ok Sample.lifecycle_request) (Ok tt) (Ok "{...}")
      (Err (Exception "KafkaTimeoutError" "timed out"))
      (Ok PNone) (Ok (PBool true)) in
  let s :=
    {| request := delete "lifecycle_name" Sample.lifecycle_request;
       events := [] |} in
  let e := Exception "KafkaTimeoutError" "timed out" in
  handle_request P Sample.config KafkaLifecycleRequestQueueHandler s
    = (Raise e,
       after s
         [missing_field_warning KafkaLifecycleRequestQueueHandler "lifecycle_name"
            (request s);
          dead_letter Sample.config "{...}" (request s);
          caught_log Sample.config KafkaLifecycleRequestQueueHandler (PStr "r2") e]).
Proof.
  refine (incomplete_request_never_reaches_the_handler
            (SampleService.failing_ports (Ok Sample.one_message)
               (Ok Sample.lifecycle_request) (Ok tt) (Ok "{...}")
               (Err (Exception "KafkaTimeoutError" "timed out"))
               (Ok PNone) (Ok (PBool true)))
            Sample.config KafkaLifecycleRequestQueueHandler
            {| request := delete "lifecycle_name" Sample.lifecycle_request;
               events := [] |}
            "lifecycle_name" _ _);
    first [by right | reflexivity | vm_compute; reflexivity].
Defined.

(** X11: a complete infrastructure request that the driver's handler
    accepts.  The handler gets the request of the message with partition
    and offset set from the consumer record (whatever the message said
    about them) and with properties and system_properties wrapped;
    [process_request] then commits and returns True, and it has done
    nothing else. *)
Theorem infrastructure_request_is_handled_and_committed
    (P : Ports) (cfg : RequestQueueConfig) (s : State)
    (items : list (TopicPartition * list ConsumerRecord))
    (topic_partition : TopicPartition) (message : ConsumerRecord)
    (req : Request) (properties system_properties wrapped wrapped_system : pyval)
    (ok : pyval) (req' : Request) :
  consumer_poll P (events s) 200 1 = Ok items ->
  first_record items = Some (topic_partition, message) ->
  JsonContent_read P (value message) = Ok req ->
  complete infrastructure_required req = true ->
  req !! "properties" = Some properties ->
  req !! "system_properties" = Some system_properties ->
  PropValueMap P properties = Ok wrapped ->
  PropValueMap P system_properties = Ok wrapped_system ->
  let prepared :=
    <["system_properties" := wrapped_system]> (
    <["properties" := wrapped]> (
    <["offset" := PInt (offset message)]> (
    <["partition" := PInt (tp_partition topic_partition)]> req))) in
  let h := events s ++ [EPoll 200 1; reading_log cfg topic_partition] in
  let committing :=
    committing_log (dict_get req "request_id" PNone) topic_partition message in
  request_handler P h prepared = (Ok ok, req') ->
  truthy ok = true ->
  consumer_commit P (h ++ [EHandleRequest prepared; committing]) = Ok tt ->
  process_request P cfg KafkaInfrastructureRequestQueueHandler s
    = (Return (PBool true),
       {| request := req';
          events := h ++ [EHandleRequest prepared; committing; ECommit] |})
  /\ prepared !! "partition" = Some (PInt (tp_partition topic_partition))
  /\ prepared !! "offset" = Some (PInt (offset message))
  /\ prepared !! "request_id" = req !! "request_id".
Proof.
  intros Hpoll Hfirst Hread Hcomplete Hprops Hsys Hwrap Hwrap_sys
    prepared h committing Hhandler Htrue Hcommit.
  split.
  - pose proof (complete_request_id KafkaInfrastructureRequestQueueHandler
                  _ Hcomplete) as Hid.
    assert (handle_request P cfg KafkaInfrastructureRequestQueueHandler
              (polled cfg s topic_partition message req)
            = (Return ok,
               {| request := req'; events := h ++ [EHandleRequest prepared] |}))
      as Hhook.
    { rewrite handle_request_complete;
        [|by left
         |unfold polled; cbn [request];
          by rewrite (complete_enriched KafkaInfrastructureRequestQueueHandler)].
      unfold try_except. rewrite bind_run. cbn [prepare].
      unfold infrastructure_prepare. rewrite bind_run.
      rewrite (wrap_PropValueMap_run _ _ _ properties wrapped)
        by (try done; unfold polled, enriched; cbn [request];
            by rewrite !lookup_insert_ne).
      rewrite (wrap_PropValueMap_run _ _ _ system_properties wrapped_system)
        by (try done; unfold polled, enriched; cbn [request];
            by rewrite !lookup_insert_ne).
      unfold delegate, polled, enriched. cbn [request events].
      fold prepared. fold h. by rewrite Hhandler. }
    pose proof (process_request_hook P cfg _ s _ _ _ _ _ _
                  Hpoll Hfirst Hread Hid Hhook) as E.
    cbv beta iota zeta in E. rewrite Htrue in E. cbn [events] in E.
    fold committing in E. rewrite <- app_assoc in E. cbn [app] in E.
    rewrite Hcommit in E. rewrite E. unfold after. cbn [request events].
    by rewrite <- app_assoc.
  - unfold prepared. repeat split.
    + rewrite !lookup_insert_ne by done. apply lookup_insert_eq.
    + rewrite !lookup_insert_ne by done. apply lookup_insert_eq.
    + by rewrite !lookup_insert_ne.
Qed.

Lemma infrastructure_request_is_handled_and_committed_witness :
  let req := <["partition" := PInt 99]> Sample.infrastructure_request in
  let prepared :=
    <["system_properties" := PDict []]> (
    <["properties" := PDict []]> (
    <["offset" := PInt 7]> (
    <["partition" := PInt 0]> req))) in
  let h := [EPoll 200 1; reading_log Sample.config Sample.topic_partition] in
  process_request
    (Sample.ports Sample.one_message req (Ok (PBool true)))
    Sample.config KafkaInfrastructureRequestQueueHandler Sample.start
    = (Return (PBool true),
       {| request := prepared;
          events := h ++
            [EHandleRequest prepared;
             committing_log (PStr "r1") Sample.topic_partition Sample.message;
             ECommit] |})
  /\ prepared !! "partition" = Some (PInt 0)
  /\ prepared !! "offset" = Some (PInt 7)
  /\ prepared !! "request_id" = req !! "request_id".
Proof.
  refine (infrastructure_request_is_handled_and_committed
            (Sample.ports Sample.one_message
               (<["partition" := PInt 99]> Sample.infrastructure_request)
               (Ok (PBool true)))
            Sample.config Sample.start
            Sample.one_message Sample.topic_partition Sample.message
            (<["partition" := PInt 99]> Sample.infrastructure_request)
            (PDict []) (PDict []) (PDict []) (PDict []) (PBool true)
            (<["system_properties" := PDict []]> (
             <["properties" := PDict []]> (
             <["offset" := PInt 7]> (
             <["partition" := PInt 0]>
               (<["partition" := PInt 99]> Sample.infrastructure_request)))))
            _ _ _ _ _ _ _ _ _ _ _);
    first [reflexivity | vm_compute; reflexivity].
Defined.

(** X12: when build_tree raises for a complete lifecycle request,
    [handle_request] logs the exception with the request id and the topic
    and raises it again: lifecycle_path is not set, the request is left as
    it was, and the driver's handler is not called. *)
Theorem build_tree_error_is_raised_again
    (P : Ports) (cfg : RequestQueueConfig) (s : State)
    (scripts : pyval) (e : exn) :
  complete lifecycle_required (request s) = true ->
  request s !! "lifecycle_scripts" = Some scripts ->
  let file_name := uuid4 P (events s) in
  build_tree P (events s ++ [EUuid4 file_name]) file_name scripts = Err e ->
  handle_request P cfg KafkaLifecycleRequestQueueHandler s
    = (Raise e,
       after s
         [EUuid4 file_name;
          EBuildTree file_name scripts;
          caught_log cfg KafkaLifecycleRequestQueueHandler
            (dict_get (request s) "request_id" PNone) e]).
Proof.
  intros Hcomplete Hscripts file_name Hbuild.
  rewrite handle_request_complete by (try done; by right).
  unfold try_except. rewrite bind_run. cbn [prepare].
  unfold lifecycle_prepare.
  rewrite bind_run. cbn [get_events]. fold file_name.
  rewrite bind_run. cbn [record_event].
  rewrite bind_run. unfold get_item at 1. cbn [request events]. rewrite Hscripts.
  rewrite bind_run, call_run. cbn [request events]. rewrite Hbuild.
  cbn [outcome_of]. rewrite reraise_run.
  unfold after. cbn [request events]. by rewrite <- !app_assoc.
Qed.

Lemma build_tree_error_is_raised_again_witness :
  let P :=
    SampleService.failing_ports (Ok Sample.one_message)
      (Ok Sample.lifecycle_request) (Ok tt) (Ok "{...}") (Ok tt)
      (Err (Exception "OSError" "disk full")) (Ok (PBool true)) in
  let s := {| request := Sample.lifecycle_request; events := [] |} in
  let file_name := "6fa459ea-ee8a-3ca4-894e-db77e160355e" in
  handle_request P Sample.config KafkaLifecycleRequestQueueHandler s
    = (Raise (Exception "OSError" "disk full"),
       after s
         [EUuid4 file_name;
          EBuildTree file_name (PStr "UEsDBA==");
          caught_log Sample.config KafkaLifecycleRequestQueueHandler (PStr "r2")
            (Exception "OSError" "disk full")]).
Proof.
  refine (build_tree_error_is_raised_again
            (SampleService.failing_ports (Ok Sample.one_message)
               (Ok Sample.lifecycle_request) (Ok tt) (Ok "{...}") (Ok tt)
               (Err (Exception "OSError" "disk full")) (Ok (PBool true)))
            Sample.config
            {| request := Sample.lifecycle_request; events := [] |}
            (PStr "UEsDBA==") (Exception "OSError" "disk full") _ _ _);
    first [reflexivity | vm_compute; reflexivity].
Defined.

(** ** The service and the consumer factory *)

(** X13: both enqueue operations reject None and a request whose request
    id is absent or None with a ValueError; they have then only logged
    the call, nothing is serialised or posted. *)
Theorem enqueue_rejects_bad_request
    (P : Ports) (str_request : option Request -> string)
    (self : KafkaRequestQueueService.t) (request : option Request) (s : State) :
  match request with
  | None => true
  | Some r => missing r "request_id"
  end = true ->
  let error :=
    ValueError
      match request with
      | None => "Request must not be null"
      | Some _ => "Request must have a request_id"
      end in
  queue_infrastructure_request P str_request self request s
    = (Raise error,
       after s
         [ELog DEBUG "queue_infrastructure_request {0} on topic {1}"
            [PStr (str_request request);
             name (topic (KafkaRequestQueueService.self_infrastructure_request_queue_config
                            self))]])
  /\ queue_lifecycle_request P self request s
     = (Raise error,
        after s
          [ELog DEBUG "queue_lifecycle_request {0} on topic {1}"
             [request_value request;
              topic_value
                (topic (KafkaRequestQueueService.self_lifecycle_request_queue_config
                          self))]]).
Proof.
  intros H error. unfold queue_infrastructure_request, queue_lifecycle_request.
  rewrite !bind_run, !logger_run.
  destruct request as [r|]; [|done]. by rewrite H.
Qed.

Lemma enqueue_rejects_bad_request_witness :
  let request := Some (<["request_id" := PNone]> Sample.infrastructure_request) in
  let error := ValueError "Request must have a request_id" in
  queue_infrastructure_request
    (Sample.ports [] Sample.infrastructure_request (Ok PNone))
    SampleService.str_request SampleService.service request Sample.start
    = (Raise error,
       after Sample.start
         [ELog DEBUG "queue_infrastructure_request {0} on topic {1}"
            [PStr "{...}"; PStr "requests"]])
  /\ queue_lifecycle_request
       (Sample.ports [] Sample.infrastructure_request (Ok PNone))
       SampleService.service request Sample.start
     = (Raise error,
        after Sample.start
          [ELog DEBUG "queue_lifecycle_request {0} on topic {1}"
             [request_value request;
              PDict [("name", PStr "lifecycle_requests")]]]).
Proof.
  refine (enqueue_rejects_bad_request
            (Sample.ports [] Sample.infrastructure_request (Ok PNone))
            SampleService.str_request SampleService.service
            (Some (<["request_id" := PNone]> Sample.infrastructure_request))
            Sample.start _).
  vm_compute. reflexivity.
Defined.

(** X14: both enqueue operations, given a request with a request id and a
    service that has a postal service, serialise the request and post it
    once, to the topic of their own queue (infrastructure or lifecycle),
    with the request id as key; they end as the post ends. *)
Theorem enqueue_posts_keyed_by_request_id
    (P : Ports) (str_request : option Request -> string)
    (self : KafkaRequestQueueService.t) (r : Request) (request_id : pyval)
    (label : string) (payload : string) (s : State) :
  r !! "request_id" = Some request_id ->
  request_id <> PNone ->
  KafkaRequestQueueService.self_postal_service self = OService label ->
  JsonContent_get P r = Ok payload ->
  let infrastructure_topic :=
    topic (KafkaRequestQueueService.self_infrastructure_request_queue_config self) in
  let lifecycle_topic :=
    topic (KafkaRequestQueueService.self_lifecycle_request_queue_config self) in
  let envelope (t : TopicConfigProperties) :=
    {| address := name t; message := {| content := payload |} |} in
  let infrastructure_log :=
    ELog DEBUG "queue_infrastructure_request {0} on topic {1}"
      [PStr (str_request (Some r)); name infrastructure_topic] in
  let lifecycle_log :=
    ELog DEBUG "queue_lifecycle_request {0} on topic {1}"
      [request_value (Some r); topic_value lifecycle_topic] in
  queue_infrastructure_request P str_request self (Some r) s
    = (outcome_of
         (postal_service_post P (events s ++ [infrastructure_log])
            (envelope infrastructure_topic) (Some request_id)),
       after s [infrastructure_log;
                EPost (envelope infrastructure_topic) (Some request_id)])
  /\ queue_lifecycle_request P self (Some r) s
     = (outcome_of
          (postal_service_post P (events s ++ [lifecycle_log])
             (envelope lifecycle_topic) (Some request_id)),
        after s [lifecycle_log;
                 EPost (envelope lifecycle_topic) (Some request_id)]).
Proof.
  intros Hid Hnone Hpostal Hpayload.
  assert (missing r "request_id" = false) as Hmissing
    by (unfold missing; rewrite Hid; by destruct request_id).
  cbv zeta.
  unfold queue_infrastructure_request, queue_lifecycle_request.
  rewrite !bind_run, !logger_run, Hmissing, Hpostal.
  cbn [postal_service_post_method].
  rewrite !bind_run. cbn [ret]. rewrite !bind_run, Hpayload. cbn [lift_result ret].
  rewrite !bind_run. unfold dict_item. rewrite Hid. cbn [ret].
  unfold post. rewrite !call_run, !after_after. by cbn [after events app].
Qed.

Lemma enqueue_posts_keyed_by_request_id_witness :
  let P := Sample.ports [] Sample.infrastructure_request (Ok PNone) in
  let envelope (t : string) :=
    {| address := PStr t; message := {| content := "{...}" |} |} in
  let infrastructure_log :=
    ELog DEBUG "queue_infrastructure_request {0} on topic {1}"
      [PStr "{...}"; PStr "requests"] in
  let lifecycle_log :=
    ELog DEBUG "queue_lifecycle_request {0} on topic {1}"
      [request_value (Some Sample.lifecycle_request);
       PDict [("name", PStr "lifecycle_requests")]] in
  queue_infrastructure_request P SampleService.str_request SampleService.service
    (Some Sample.lifecycle_request) Sample.start
    = (Return tt,
       after Sample.start
         [infrastructure_log; EPost (envelope "requests") (Some (PStr "r2"))])
  /\ queue_lifecycle_request P SampleService.service
       (Some Sample.lifecycle_request) Sample.start
     = (Return tt,
        after Sample.start
          [lifecycle_log;
           EPost (envelope "lifecycle_requests") (Some (PStr "r2"))]).
Proof.
  refine (enqueue_posts_keyed_by_request_id
            (Sample.ports [] Sample.infrastructure_request (Ok PNone))
            SampleService.str_request SampleService.service
            Sample.lifecycle_request (PStr "r2") "postal_service" "{...}"
            Sample.start _ _ _ _);
    first [reflexivity | discriminate | vm_compute; reflexivity].
Defined.

(** What a constructed service was made from. *)
Lemma service_init_inv (kwargs : gmap string pyobj)
    (service : KafkaRequestQueueService.t) :
  KafkaRequestQueueService.init kwargs = Ok service ->
  exists messaging infrastructure_queue lifecycle_queue postal manager
         infrastructure_factory lifecycle_factory,
    kwargs !! "messaging_config" = Some (OMessagingConfig messaging)
    /\ kwargs !! "infrastructure_config" = Some (OPropertiesGroup infrastructure_queue)
    /\ kwargs !! "lifecycle_config" = Some (OPropertiesGroup lifecycle_queue)
    /\ kwargs !! "postal_service" = Some postal
    /\ kwargs !! "script_file_manager" = Some manager
    /\ kwargs !! "infrastructure_consumer_factory" = Some infrastructure_factory
    /\ kwargs !! "lifecycle_consumer_factory" = Some lifecycle_factory
    /\ service =
       {| KafkaRequestQueueService.self_script_file_manager := manager;
          KafkaRequestQueueService.self_bootstrap_servers :=
            connection_address messaging;
          KafkaRequestQueueService.self_infrastructure_request_queue_config :=
            infrastructure_queue;
          KafkaRequestQueueService.self_lifecycle_request_queue_config :=
            lifecycle_queue;
          KafkaRequestQueueService.self_postal_service := postal;
          KafkaRequestQueueService.self_infrastructure_consumer_factory :=
            infrastructure_factory;
          KafkaRequestQueueService.self_lifecycle_consumer_factory :=
            lifecycle_factory |}.
Proof.
  unfold KafkaRequestQueueService.init, KafkaRequestQueueService.not_in,
    KafkaRequestQueueService.kwargs_get.
  intros H.
  destruct (kwargs !! "messaging_config") as [messaging|]; [|done].
  destruct (kwargs !! "infrastructure_config") as [infrastructure|]; [|done].
  destruct (kwargs !! "lifecycle_config") as [lifecycle|]; [|done].
  destruct (kwargs !! "postal_service") as [postal|]; [|done].
  destruct (kwargs !! "script_file_manager") as [manager|]; [|done].
  destruct (kwargs !! "infrastructure_consumer_factory") as [ifactory|]; [|done].
  destruct (kwargs !! "lifecycle_consumer_factory") as [lfactory|]; [|done].
  destruct messaging as [| messaging | |]; try done.
  destruct infrastructure as [| | infrastructure_queue |]; try done.
  destruct lifecycle as [| | lifecycle_queue |]; try done.
  simpl in H. inversion H; subst.
  by exists messaging, infrastructure_queue, lifecycle_queue, postal, manager,
    ifactory, lfactory.
Qed.

(** X15: the service constructor succeeds exactly when all seven keyword
    arguments are given, messaging_config has a connection address and
    the two driver configurations have a request queue; the service then
    holds the values given, whatever they are. *)
Theorem service_construction_succeeds_iff
    (kwargs : gmap string pyobj) (service : KafkaRequestQueueService.t) :
  KafkaRequestQueueService.init kwargs = Ok service
  <->
  exists messaging infrastructure_queue lifecycle_queue postal manager
         infrastructure_factory lifecycle_factory,
    kwargs !! "messaging_config" = Some (OMessagingConfig messaging)
    /\ kwargs !! "infrastructure_config" = Some (OPropertiesGroup infrastructure_queue)
    /\ kwargs !! "lifecycle_config" = Some (OPropertiesGroup lifecycle_queue)
    /\ kwargs !! "postal_service" = Some postal
    /\ kwargs !! "script_file_manager" = Some manager
    /\ kwargs !! "infrastructure_consumer_factory" = Some infrastructure_factory
    /\ kwargs !! "lifecycle_consumer_factory" = Some lifecycle_factory
    /\ service =
       {| KafkaRequestQueueService.self_script_file_manager := manager;
          KafkaRequestQueueService.self_bootstrap_servers :=
            connection_address messaging;
          KafkaRequestQueueService.self_infrastructure_request_queue_config :=
            infrastructure_queue;
          KafkaRequestQueueService.self_lifecycle_request_queue_config :=
            lifecycle_queue;
          KafkaRequestQueueService.self_postal_service := postal;
          KafkaRequestQueueService.self_infrastructure_consumer_factory :=
            infrastructure_factory;
          KafkaRequestQueueService.self_lifecycle_consumer_factory :=
            lifecycle_factory |}.
Proof.
  split.
  - apply service_init_inv.
  - unfold KafkaRequestQueueService.init, KafkaRequestQueueService.not_in,
      KafkaRequestQueueService.kwargs_get.
    intros (messaging & infrastructure_queue & lifecycle_queue & postal & manager
            & ifactory & lfactory & -> & -> & -> & -> & -> & -> & -> & ->).
    reflexivity.
Qed.

(** X16: a service whose postal service is None is constructed without
    error, and fails only when a request is enqueued: given a request
    with a request id, both enqueue operations log the call and then raise
    the AttributeError of the lookup of [post] on None; they do nothing
    else, nothing is serialised or posted. *)
Theorem None_postal_service_fails_at_first_use
    (P : Ports) (str_request : option Request -> string)
    (kwargs : gmap string pyobj) (service : KafkaRequestQueueService.t)
    (r : Request) (s : State) :
  KafkaRequestQueueService.init kwargs = Ok service ->
  kwargs !! "postal_service" = Some ONone ->
  missing r "request_id" = false ->
  let error := AttributeError "'NoneType' object has no attribute 'post'" in
  queue_infrastructure_request P str_request service (Some r) s
    = (Raise error,
       after s
         [ELog DEBUG "queue_infrastructure_request {0} on topic {1}"
            [PStr (str_request (Some r));
             name (topic (KafkaRequestQueueService.self_infrastructure_request_queue_config
                            service))]])
  /\ queue_lifecycle_request P service (Some r) s
     = (Raise error,
        after s
          [ELog DEBUG "queue_lifecycle_request {0} on topic {1}"
             [request_value (Some r);
              topic_value
                (topic (KafkaRequestQueueService.self_lifecycle_request_queue_config
                          service))]]).
Proof.
  intros Hinit Hpostal Hmissing error.
  apply service_init_inv in Hinit
    as (messaging & iq & lq & postal & manager & ifactory & lfactory
        & _ & _ & _ & Hp & _ & _ & _ & ->).
  rewrite Hpostal in Hp. inversion Hp; subst.
  unfold queue_infrastructure_request, queue_lifecycle_request.
  rewrite !bind_run, !logger_run, Hmissing.
  cbn [KafkaRequestQueueService.self_postal_service postal_service_post_method].
  by rewrite !bind_run.
Qed.

Lemma None_postal_service_fails_at_first_use_witness :
  let P := Sample.ports [] Sample.infrastructure_request (Ok PNone) in
  let service :=
    {| KafkaRequestQueueService.self_script_file_manager :=
         OService "script_file_manager";
       KafkaRequestQueueService.self_bootstrap_servers := PStr "";
       KafkaRequestQueueService.self_infrastructure_request_queue_config :=
         Sample.config;
       KafkaRequestQueueService.self_lifecycle_request_queue_config :=
         Sample.config;
       KafkaRequestQueueService.self_postal_service := ONone;
       KafkaRequestQueueService.self_infrastructure_consumer_factory :=
         OService "infrastructure_consumer_factory";
       KafkaRequestQueueService.self_lifecycle_consumer_factory :=
         OService "lifecycle_consumer_factory" |} in
  let r := Sample.infrastructure_request in
  let error := AttributeError "'NoneType' object has no attribute 'post'" in
  queue_infrastructure_request P SampleService.str_request service (Some r)
    Sample.start
    = (Raise error,
       after Sample.start
         [ELog DEBUG "queue_infrastructure_request {0} on topic {1}"
            [PStr "{...}"; PStr "requests"]])
  /\ queue_lifecycle_request P service (Some r) Sample.start
     = (Raise error,
        after Sample.start
          [ELog DEBUG "queue_lifecycle_request {0} on topic {1}"
             [request_value (Some r); PDict [("name", PStr "requests")]]]).
Proof.
  refine (None_postal_service_fails_at_first_use
            (Sample.ports [] Sample.infrastructure_request (Ok PNone))
            SampleService.str_request Sample.unchecked_kwargs _
            Sample.infrastructure_request Sample.start _ _ _);
    vm_compute; reflexivity.
Defined.

(** What a constructed consumer factory was made from. *)
Lemma factory_init_inv (request_queue_config : RequestQueueConfig)
    (messaging_config : MessagingConfig) (factory : KafkaConsumerFactory.t) :
  KafkaConsumerFactory.init request_queue_config messaging_config = Ok factory ->
  None_or_empty (connection_address messaging_config) = false
  /\ None_or_empty (name (topic request_queue_config)) = false
  /\ None_or_empty (group_id request_queue_config) = false
  /\ factory =
     {| KafkaConsumerFactory.self_bootstrap_servers :=
          connection_address messaging_config;
        KafkaConsumerFactory.self_topic_name := name (topic request_queue_config);
        KafkaConsumerFactory.self_group_id := group_id request_queue_config |}.
Proof.
  unfold KafkaConsumerFactory.init. intros H.
  destruct (None_or_empty (connection_address messaging_config)); [done|].
  destruct (None_or_empty (name (topic request_queue_config))); [done|].
  destruct (None_or_empty (group_id request_queue_config)); [done|].
  by inversion H.
Qed.

(** X17: the consumer factory constructor succeeds exactly when the
    connection address, the topic name and the group id are all neither
    None nor empty; the factory then holds these three values. *)
Theorem consumer_factory_construction_succeeds_iff
    (request_queue_config : RequestQueueConfig)
    (messaging_config : MessagingConfig) (factory : KafkaConsumerFactory.t) :
  KafkaConsumerFactory.init request_queue_config messaging_config = Ok factory
  <->
  None_or_empty (connection_address messaging_config) = false
  /\ None_or_empty (name (topic request_queue_config)) = false
  /\ None_or_empty (group_id request_queue_config) = false
  /\ factory =
     {| KafkaConsumerFactory.self_bootstrap_servers :=
          connection_address messaging_config;
        KafkaConsumerFactory.self_topic_name := name (topic request_queue_config);
        KafkaConsumerFactory.self_group_id := group_id request_queue_config |}.
Proof.
  split; [apply factory_init_inv|].
  intros (H1 & H2 & H3 & ->). unfold KafkaConsumerFactory.init.
  by rewrite H1, H2, H3.
Qed.

(** X18: every consumer created by a successfully constructed factory
    has auto-commit disabled, is made for the topic, the servers and the
    group of the configuration, none of them None or empty, and has a
    maximal poll interval of 300000 ms unless the caller gives one;
    creating it only logs. *)
Theorem created_consumer_never_auto_commits
    (request_queue_config : RequestQueueConfig)
    (messaging_config : MessagingConfig) (factory : KafkaConsumerFactory.t)
    (max_poll_interval_ms : option Z) (s : State) :
  KafkaConsumerFactory.init request_queue_config messaging_config = Ok factory ->
  let interval :=
    match max_poll_interval_ms with
    | Some n => n
    | None => 300000
    end in
  create_consumer factory max_poll_interval_ms s
    = (Return
         {| call_topic := name (topic request_queue_config);
            call_bootstrap_servers := connection_address messaging_config;
            call_group_id := group_id request_queue_config;
            call_enable_auto_commit := false;
            call_max_poll_interval_ms := interval |},
       after s
         [ELog DEBUG
            "Creating Kafka consumer for bootstrap server {0} topic {1} group {2} max_poll_interval_ms {3}"
            [connection_address messaging_config;
             name (topic request_queue_config);
             group_id request_queue_config;
             PInt interval]])
  /\ None_or_empty (name (topic request_queue_config)) = false
  /\ None_or_empty (connection_address messaging_config) = false
  /\ None_or_empty (group_id request_queue_config) = false.
Proof.
  intros (H1 & H2 & H3 & ->)%factory_init_inv interval.
  by repeat split.
Qed.

Lemma created_consumer_never_auto_commits_witness :
  create_consumer
    {| KafkaConsumerFactory.self_bootstrap_servers := PStr "kafka:9092";
       KafkaConsumerFactory.self_topic_name := PStr "requests";
       KafkaConsumerFactory.self_group_id := PStr "driver" |}
    None Sample.start
    = (Return
         {| call_topic := PStr "requests";
            call_bootstrap_servers := PStr "kafka:9092";
            call_group_id := PStr "driver";
            call_enable_auto_commit := false;
            call_max_poll_interval_ms := 300000 |},
       after Sample.start
         [ELog DEBUG
            "Creating Kafka consumer for bootstrap server {0} topic {1} group {2} max_poll_interval_ms {3}"
            [PStr "kafka:9092"; PStr "requests"; PStr "driver"; PInt 300000]])
  /\ None_or_empty (PStr "requests") = false
  /\ None_or_empty (PStr "kafka:9092") = false
  /\ None_or_empty (PStr "driver") = false.
Proof.
  refine (created_consumer_never_auto_commits
            Sample.config {| connection_address := PStr "kafka:9092" |}
            _ None Sample.start _).
  reflexivity.
Defined.

(** X19: when the request cannot be serialised, [handle_failed_request]
    posts nothing: the exception of the serialiser escapes and nothing
    has changed. *)
Theorem unserialisable_request_is_not_posted
    (P : Ports) (cfg : RequestQueueConfig) (s : State) (e : exn) :
  JsonContent_get P (request s) = Err e ->
  handle_failed_request P cfg s = (Raise e, s).
Proof.
  intros H. by rewrite handle_failed_request_cases, H.
Qed.

Lemma unserialisable_request_is_not_posted_witness :
  let s := {| request := Sample.infrastructure_request; events := [EPoll 200 1] |} in
  handle_failed_request
    (SampleService.failing_ports (Ok Sample.one_message)
       (Ok Sample.infrastructure_request) (Ok tt)
       (Err (Exception "TypeError" "not JSON serializable")) (Ok tt)
       (Ok PNone) (Ok (PBool true)))
    Sample.config s
    = (Raise (Exception "TypeError" "not JSON serializable"), s).
Proof.
  refine (unserialisable_request_is_not_posted
            (SampleService.failing_ports (Ok Sample.one_message)
               (Ok Sample.infrastructure_request) (Ok tt)
               (Err (Exception "TypeError" "not JSON serializable")) (Ok tt)
               (Ok PNone) (Ok (PBool true)))
            Sample.config
            {| request := Sample.infrastructure_request; events := [EPoll 200 1] |}
            (Exception "TypeError" "not JSON serializable") _).
  reflexivity.
Defined.

(** X20: the loop of [process_request] handles one message only: it skips
    the partitions without messages, handles the first message of the
    first partition that has one, and ignores every later message and
    partition of the poll result. *)
Theorem only_the_first_message_is_processed
    (P : Ports) (cfg : RequestQueueConfig) (self : HandlerClass)
    (skipped : list (TopicPartition * list ConsumerRecord))
    (topic_partition : TopicPartition) (message : ConsumerRecord)
    (later : list ConsumerRecord)
    (rest : list (TopicPartition * list ConsumerRecord)) :
  Forall (fun item => snd item = []) skipped ->
  process_records P cfg self
    (skipped ++ (topic_partition, message :: later) :: rest)
  = process_message P cfg self topic_partition message.
Proof.
  induction 1 as [|[tp messages] skipped Hempty _ IH]; [done|].
  simpl in Hempty. subst messages. exact IH.
Qed.

Lemma only_the_first_message_is_processed_witness :
  process_records
    (Sample.ports Sample.one_message Sample.infrastructure_request (Ok (PBool true)))
    Sample.config KafkaInfrastructureRequestQueueHandler
    ([({| tp_topic := "requests"; tp_partition := 1 |}, [])] ++
     (Sample.topic_partition,
      Sample.message :: [{| value := "second"; offset := 8 |}]) ::
     [({| tp_topic := "requests"; tp_partition := 2 |},
       [{| value := "third"; offset := 3 |}])])
  = process_message
      (Sample.ports Sample.one_message Sample.infrastructure_request (Ok (PBool true)))
      Sample.config KafkaInfrastructureRequestQueueHandler
      Sample.topic_partition Sample.message.
Proof.
  refine (only_the_first_message_is_processed
            (Sample.ports Sample.one_message Sample.infrastructure_request
               (Ok (PBool true)))
            Sample.config KafkaInfrastructureRequestQueueHandler
            [({| tp_topic := "requests"; tp_partition := 1 |}, [])]
            Sample.topic_partition Sample.message
            [{| value := "second"; offset := 8 |}]
            [({| tp_topic := "requests"; tp_partition := 2 |},
              [{| value := "third"; offset := 3 |}])] _).
  by repeat constructor.
Defined.
